(** * Perpetual points calculator: the point-calculation engine

    A shallow embedding of [calculateLiquidityPointBase] and
    [calculateUserPoints] of one-piece-points (the module that the tests
    import as './index'; lines 160-333 of src/subgraph-types.ts in the source
    listing), with the properties of the engine stated and proved over it.

    Modelling conventions.
    - A finite [Decimal] (decimal.js) is a rational number, modelled by the
      canonical rationals [Qc].  The engine never sets [Decimal.precision]
      or [Decimal.rounding], so every [plus], [minus] and [times] returns
      the exact result rounded to 20 significant digits, half away from
      zero ([Decimal.finalise]); the constructor, the comparisons and
      [isNegative] do not round.  NaN, the infinities and the exponent
      limits of decimal.js are outside the model; the [-0] of decimal.js is
      identified with [0].
    - A JavaScript [number] holding a timestamp is an integer, modelled by
      [Z]; [endTime - endSnap.timestamp] is exact on such values.
    - An array is a [list]; [a[0]] is the head when there is one; a nullable
      object is an [option].
    - Each interface is a record [t] in a module of the interface's name, so
      that the fields keep their names: [PerpLeaderboard.ended lead] is
      [lead.ended].

    The second part embeds the subgraph client ([SubgraphClient] of
    src/subgraph-client.ts, with the error classes and the default
    configuration of src/subgraph-types.ts): its retry policy, its
    pagination loops and its configuration. *)

From Stdlib Require Import ZArith QArith Qcanon Qround Qpower.
From Stdlib Require Import List String Bool Lia.
From Equations Require Import Equations.
Import ListNotations.

Local Open Scope Z_scope.

(** ** decimal.js, the part the engine uses *)

Module Decimal.

Definition t : Set := Qc.

(** [new Decimal(n)] for an integral JavaScript number.  The constructor
    keeps every digit of its argument. *)
Definition of_Z (n : Z) : t := Q2Qc (inject_Z n).

Definition zero : t := of_Z 0.

(** [Decimal.precision], the number of significant digits of the result of
    an operation; the default, which the engine never changes. *)
Definition precision : Z := 20.

(** The number of decimal digits of a positive integer. *)
Fixpoint ndigits_fuel (fuel : nat) (a : Z) : Z :=
  match fuel with
  | O => 0
  | S fuel => if a <? 10 then 1 else 1 + ndigits_fuel fuel (a / 10)
  end.

Definition ndigits (a : Z) : Z := ndigits_fuel (S (Z.to_nat (Z.log2 a))) a.

(** The decimal exponent of a positive rational [q]: the [e] with
    [10^e <= q < 10^(e+1)].  The difference of the numbers of digits of
    numerator and denominator is [e] or [e + 1]. *)
Definition exponent (q : Q) : Z :=
  let e0 := ndigits (Qnum q) - ndigits (Zpos (Qden q)) in
  if Qle_bool (10 ^ e0) q then e0 else e0 - 1.

(** The first [precision] digits of a positive rational, as an integer,
    rounded to the nearest integer, a tie upwards. *)
Definition mantissa (q : Q) : Z :=
  Qfloor (q * 10 ^ (precision - 1 - exponent q) + (1 # 2))%Q.

Definition round_pos (q : Q) : Q :=
  (inject_Z (mantissa q) * 10 ^ (exponent q - (precision - 1)))%Q.

(** Rounding to [precision] significant digits in the default rounding mode
    of decimal.js, [ROUND_HALF_UP]: to the nearest, a tie away from zero. *)
Definition roundQ (q : Q) : Q :=
  match (q ?= 0)%Q with
  | Eq => 0%Q
  | Gt => round_pos q
  | Lt => (- round_pos (- q))%Q
  end.

(** [finalise(x, Decimal.precision, Decimal.rounding)], which ends every
    arithmetic operation of decimal.js.  ([Qred] puts the fraction in
    lowest terms, so that a closed term evaluates to a numeral.) *)
Definition finalise (x : t) : t := Q2Qc (Qred (roundQ x)).

(** [x.add(y)], [x.sub(y)], [x.mul(y)]: the exact result, rounded; also
    when one operand is zero ([x.add(0)] and [x.sub(0)] round [x]). *)
Definition add (x y : t) : t := finalise (Qcplus x y).
Definition sub (x y : t) : t := finalise (Qcminus x y).
Definition mul (x y : t) : t := finalise (Qcmult x y).

(** [x.gt(y)] *)
Definition gt (x y : t) : bool :=
  match Qccompare x y with Gt => true | _ => false end.

(** [x.isNegative()] *)
Definition isNegative (x : t) : bool :=
  match Qccompare x zero with Lt => true | _ => false end.

(** [Decimal.max(x, y)], used only to state properties. *)
Definition max (x y : t) : t := if gt y x then y else x.

(** The order, as propositions. *)
Definition le (x y : t) : Prop := Qcle x y.
Definition lt (x y : t) : Prop := Qclt x y.

(** [x] has at most [precision] significant digits: rounding leaves it as it
    is. *)
Definition fits (x : t) : Prop := finalise x = x.

End Decimal.

Abbreviation Decimal := Decimal.t.

(** ** Data structures *)

Module PerpLiquiditySnap.
Record t : Set := {
  id : string;
  lp : Decimal;
  basePoints : Decimal;
  timestamp : Z
}.
End PerpLiquiditySnap.
Abbreviation PerpLiquiditySnap := PerpLiquiditySnap.t.

Module PerpLiquidity.
Record t : Set := {
  account : string;
  lp : Decimal;
  start : list PerpLiquiditySnap;
  ended : list PerpLiquiditySnap
}.
End PerpLiquidity.
Abbreviation PerpLiquidity := PerpLiquidity.t.

Module PerpLeaderboardSnap.
Record t : Set := {
  tradingVolume : Decimal;
  conditionTradeVolume : Decimal;
  swap : Decimal;
  netProfit : Decimal
}.
End PerpLeaderboardSnap.
Abbreviation PerpLeaderboardSnap := PerpLeaderboardSnap.t.

(** [liquidity] is declared non-null, but [calculateUserPoints] tests it
    ([if (lead.liquidity)]), so it is an [option] here. *)
Module PerpLeaderboard.
Record t : Set := {
  account : string;
  tradingVolume : Decimal;
  conditionTradeVolume : Decimal;
  swap : Decimal;
  netProfit : Decimal;
  latestUpdateTimestamp : Z;
  start : list PerpLeaderboardSnap;
  ended : list PerpLeaderboardSnap;
  liquidity : option PerpLiquidity
}.
End PerpLeaderboard.
Abbreviation PerpLeaderboard := PerpLeaderboard.t.

Module CalculationConfig.
Record t : Set := {
  liquidityRate : Decimal;
  tradeProfitRate : Decimal;
  tradeRate : Decimal
}.
End CalculationConfig.
Abbreviation CalculationConfig := CalculationConfig.t.

Module UserPoints.
Record t : Set := {
  account : string;
  lp_usd_hours : Decimal;
  volume_usd : Decimal;
  realized_pnl_net_usd : Decimal
}.
End UserPoints.
Abbreviation UserPoints := UserPoints.t.

(** ** The liquidity integrator *)

Definition calculateLiquidityPointBase
    (liquidity : PerpLiquidity) (startTime endTime : Z) : Decimal :=
  match PerpLiquidity.ended liquidity with
  | [] => Decimal.zero
  | endSnap :: _ =>
    let startSnap := hd_error (PerpLiquidity.start liquidity) in
    if PerpLiquiditySnap.timestamp endSnap <? startTime then Decimal.zero
    else
      let integral := PerpLiquiditySnap.basePoints endSnap in
      let integral :=
        if PerpLiquiditySnap.timestamp endSnap <? endTime then
          let delterPoint :=
            Decimal.mul
              (Decimal.of_Z (endTime - PerpLiquiditySnap.timestamp endSnap))
              (PerpLiquiditySnap.lp endSnap) in
          Decimal.add integral delterPoint
        else integral in
      match startSnap with
      | Some startSnap =>
        let beforeBasePoints := PerpLiquiditySnap.basePoints startSnap in
        let beforeBasePoints :=
          if PerpLiquiditySnap.timestamp startSnap <? startTime then
            let delterPoint :=
              Decimal.mul
                (Decimal.of_Z
                   (startTime - PerpLiquiditySnap.timestamp startSnap))
                (PerpLiquiditySnap.lp startSnap) in
            Decimal.add beforeBasePoints delterPoint
          else beforeBasePoints in
        Decimal.sub integral beforeBasePoints
      | None => integral
      end
  end.

(** ** The point aggregator *)

(** The callback of [leaderboards.map].  [lead.ended[0]] and
    [lead.start[0]] are read only under a guard on the length of the array,
    so the [[]] branch of a [match] below an [if] is never taken. *)
Definition userPoints
    (config : CalculationConfig) (startTime stopTime : Z) (overtime : bool)
    (lead : PerpLeaderboard) : UserPoints :=
  let lp_usd_hours :=
    match PerpLeaderboard.liquidity lead with
    | Some liquidity =>
      let baseIntegral :=
        calculateLiquidityPointBase liquidity startTime stopTime in
      let liquidityPoint :=
        Decimal.mul baseIntegral (CalculationConfig.liquidityRate config) in
      if Decimal.isNegative liquidityPoint then Decimal.zero
      else liquidityPoint
    | None => Decimal.zero
    end in
  let tradeVolume := PerpLeaderboard.tradingVolume lead in
  let tradeVolume :=
    if overtime && (PerpLeaderboard.latestUpdateTimestamp lead >? stopTime)
       && (0 <? List.length (PerpLeaderboard.ended lead))%nat
    then match PerpLeaderboard.ended lead with
         | e :: _ => PerpLeaderboardSnap.tradingVolume e
         | [] => tradeVolume
         end
    else tradeVolume in
  let tradeVolume :=
    match PerpLeaderboard.start lead with
    | s :: _ => Decimal.sub tradeVolume (PerpLeaderboardSnap.tradingVolume s)
    | [] => tradeVolume
    end in
  let tradePoint :=
    Decimal.mul tradeVolume (CalculationConfig.tradeRate config) in
  let volume_usd :=
    if Decimal.isNegative tradePoint then Decimal.zero else tradePoint in
  let netProfit := PerpLeaderboard.netProfit lead in
  let netProfit :=
    if overtime && (PerpLeaderboard.latestUpdateTimestamp lead >? stopTime)
       && (0 <? List.length (PerpLeaderboard.ended lead))%nat
    then match PerpLeaderboard.ended lead with
         | e :: _ => PerpLeaderboardSnap.netProfit e
         | [] => netProfit
         end
    else netProfit in
  let netProfit :=
    match PerpLeaderboard.start lead with
    | s :: _ => Decimal.sub netProfit (PerpLeaderboardSnap.netProfit s)
    | [] => netProfit
    end in
  let tradeProfitPoint :=
    if Decimal.gt netProfit Decimal.zero
    then Decimal.mul netProfit (CalculationConfig.tradeProfitRate config)
    else Decimal.zero in
  let realized_pnl_net_usd :=
    if Decimal.isNegative tradeProfitPoint then Decimal.zero
    else tradeProfitPoint in
  {| UserPoints.account := PerpLeaderboard.account lead;
     UserPoints.lp_usd_hours := lp_usd_hours;
     UserPoints.volume_usd := volume_usd;
     UserPoints.realized_pnl_net_usd := realized_pnl_net_usd |}.

Definition calculateUserPoints
    (leaderboards : list PerpLeaderboard) (config : CalculationConfig)
    (startTime stopTime : Z) (overtime : bool) : list UserPoints :=
  map (userPoints config startTime stopTime overtime) leaderboards.

(** ** What the specification and the README call things

    These definitions follow the words of the specification; the theorems
    below compare them with the functions above. *)

Module Spec.

(** [clampNonNegative(x)] is [max(0, x)]. *)
Definition clampNonNegative (x : Decimal) : Decimal :=
  Decimal.max Decimal.zero x.

(** The running integral of a snapshot evaluated at time [t], held flat
    after the snapshot: [basePoints + (t - timestamp) * lp] when the
    snapshot is older than [t], [basePoints] otherwise; the product and the
    sum are those of decimal.js, each rounded to 20 significant digits. *)
Definition integralAt (s : PerpLiquiditySnap) (t : Z) : Decimal :=
  if PerpLiquiditySnap.timestamp s <? t
  then Decimal.add
         (PerpLiquiditySnap.basePoints s)
         (Decimal.mul (Decimal.of_Z (t - PerpLiquiditySnap.timestamp s))
                      (PerpLiquiditySnap.lp s))
  else PerpLiquiditySnap.basePoints s.

(** [E]: the ended snapshot evaluated at the end of the window. *)
Definition E (e : PerpLiquiditySnap) (windowEnd : Z) : Decimal :=
  integralAt e windowEnd.

(** The same quantities in exact arithmetic, as the specification writes
    them: [exactE] is its [E], [exactS] its [S], which is [0] when there is
    no start snapshot. *)
Definition exactIntegralAt (s : PerpLiquiditySnap) (t : Z) : Decimal :=
  if PerpLiquiditySnap.timestamp s <? t
  then Qcplus
         (PerpLiquiditySnap.basePoints s)
         (Qcmult (Decimal.of_Z (t - PerpLiquiditySnap.timestamp s))
                 (PerpLiquiditySnap.lp s))
  else PerpLiquiditySnap.basePoints s.

Definition exactE (e : PerpLiquiditySnap) (windowEnd : Z) : Decimal :=
  exactIntegralAt e windowEnd.

Definition exactS (s : option PerpLiquiditySnap) (windowStart : Z)
    : Decimal :=
  match s with
  | None => Decimal.zero
  | Some s => exactIntegralAt s windowStart
  end.

(** Evaluating a snapshot at [t] rounds nothing: when the snapshot is older
    than [t], the exact product and the exact sum have at most 20
    significant digits. *)
Definition integralAt_fits (s : PerpLiquiditySnap) (t : Z) : Prop :=
  PerpLiquiditySnap.timestamp s < t ->
  Decimal.fits
    (Qcmult (Decimal.of_Z (t - PerpLiquiditySnap.timestamp s))
            (PerpLiquiditySnap.lp s))
  /\ Decimal.fits
       (Qcplus
          (PerpLiquiditySnap.basePoints s)
          (Qcmult (Decimal.of_Z (t - PerpLiquiditySnap.timestamp s))
                  (PerpLiquiditySnap.lp s))).

(** The integrator rounds nothing on a record and a window: neither the
    evaluation of the ended snapshot, nor that of the start snapshot, nor
    the subtraction, when there is a start snapshot. *)
Definition integral_fits
    (e : PerpLiquiditySnap) (s : option PerpLiquiditySnap)
    (windowStart windowEnd : Z) : Prop :=
  integralAt_fits e windowEnd
  /\ match s with
     | Some s =>
       integralAt_fits s windowStart
       /\ Decimal.fits
            (Qcminus (exactE e windowEnd) (exactIntegralAt s windowStart))
     | None => True
     end.

(** The end baselines after the overtime substitution. *)
Definition effectiveEndVolume
    (overtime : bool) (windowEnd : Z) (r : PerpLeaderboard) : Decimal :=
  match hd_error (PerpLeaderboard.ended r) with
  | Some e =>
    if overtime && (windowEnd <? PerpLeaderboard.latestUpdateTimestamp r)
    then PerpLeaderboardSnap.tradingVolume e
    else PerpLeaderboard.tradingVolume r
  | None => PerpLeaderboard.tradingVolume r
  end.

Definition effectiveEndProfit
    (overtime : bool) (windowEnd : Z) (r : PerpLeaderboard) : Decimal :=
  match hd_error (PerpLeaderboard.ended r) with
  | Some e =>
    if overtime && (windowEnd <? PerpLeaderboard.latestUpdateTimestamp r)
    then PerpLeaderboardSnap.netProfit e else PerpLeaderboard.netProfit r
  | None => PerpLeaderboard.netProfit r
  end.

(** Trade points from a given end baseline: subtract the start snapshot
    when there is one, multiply by the rate, clamp. *)
Definition tradePointsFrom
    (config : CalculationConfig) (endVolume : Decimal)
    (r : PerpLeaderboard) : Decimal :=
  let inWindow :=
    match hd_error (PerpLeaderboard.start r) with
    | Some s => Decimal.sub endVolume (PerpLeaderboardSnap.tradingVolume s)
    | None => endVolume
    end in
  clampNonNegative
    (Decimal.mul inWindow (CalculationConfig.tradeRate config)).

(** Net profit of the window from a given end baseline. *)
Definition netProfitInWindow
    (endProfit : Decimal) (r : PerpLeaderboard) : Decimal :=
  match hd_error (PerpLeaderboard.start r) with
  | Some s => Decimal.sub endProfit (PerpLeaderboardSnap.netProfit s)
  | None => endProfit
  end.

(** Trade-profit points from a given end baseline: only a strictly
    positive net profit is multiplied by the rate. *)
Definition tradeProfitPointsFrom
    (config : CalculationConfig) (endProfit : Decimal)
    (r : PerpLeaderboard) : Decimal :=
  let np := netProfitInWindow endProfit r in
  if Decimal.gt np Decimal.zero
  then clampNonNegative
         (Decimal.mul np (CalculationConfig.tradeProfitRate config))
  else Decimal.zero.

(** The configuration as the README documents it ('CalculationConfig',
    'Configuration for point calculation rates and limits') and as the
    specification has it: the three rates and, with each, an optional limit.
    The [CalculationConfig] that [calculateUserPoints] takes has the rates
    only; of an object with limits it reads [rates]. *)
Record LimitedConfig : Set := {
  rates : CalculationConfig;
  liquidityLimit : option Decimal;
  tradeLimit : option Decimal;
  tradeProfitLimit : option Decimal
}.

(** Two snapshots, liquidity records and user records that differ at most
    in [swap], [conditionTradeVolume] and the top-level [lp]. *)
Definition snap_agree (s1 s2 : PerpLeaderboardSnap) : Prop :=
  PerpLeaderboardSnap.tradingVolume s1 = PerpLeaderboardSnap.tradingVolume s2
  /\ PerpLeaderboardSnap.netProfit s1 = PerpLeaderboardSnap.netProfit s2.

Definition liquidity_agree (l1 l2 : option PerpLiquidity) : Prop :=
  match l1, l2 with
  | Some a, Some b =>
    PerpLiquidity.account a = PerpLiquidity.account b
    /\ PerpLiquidity.start a = PerpLiquidity.start b
    /\ PerpLiquidity.ended a = PerpLiquidity.ended b
  | None, None => True
  | _, _ => False
  end.

Definition differ_only_in_ignored (r1 r2 : PerpLeaderboard) : Prop :=
  PerpLeaderboard.account r1 = PerpLeaderboard.account r2
  /\ PerpLeaderboard.tradingVolume r1 = PerpLeaderboard.tradingVolume r2
  /\ PerpLeaderboard.netProfit r1 = PerpLeaderboard.netProfit r2
  /\ PerpLeaderboard.latestUpdateTimestamp r1
     = PerpLeaderboard.latestUpdateTimestamp r2
  /\ Forall2 snap_agree (PerpLeaderboard.start r1) (PerpLeaderboard.start r2)
  /\ Forall2 snap_agree (PerpLeaderboard.ended r1) (PerpLeaderboard.ended r2)
  /\ liquidity_agree (PerpLeaderboard.liquidity r1)
                     (PerpLeaderboard.liquidity r2).

(** The three point fields of a result are non-negative. *)
Definition nonNegative (p : UserPoints) : Prop :=
  Decimal.le Decimal.zero (UserPoints.lp_usd_hours p)
  /\ Decimal.le Decimal.zero (UserPoints.volume_usd p)
  /\ Decimal.le Decimal.zero (UserPoints.realized_pnl_net_usd p).

End Spec.

(** ** Fixtures, from src/index.test.ts *)

Module Fixtures.

Definition liquiditySnap (id : string) (lp bp ts : Z) : PerpLiquiditySnap :=
  {| PerpLiquiditySnap.id := id; PerpLiquiditySnap.lp := Decimal.of_Z lp;
     PerpLiquiditySnap.basePoints := Decimal.of_Z bp;
     PerpLiquiditySnap.timestamp := ts |}.

Definition leaderboardSnap (tv ctv sw np : Z) : PerpLeaderboardSnap :=
  {| PerpLeaderboardSnap.tradingVolume := Decimal.of_Z tv;
     PerpLeaderboardSnap.conditionTradeVolume := Decimal.of_Z ctv;
     PerpLeaderboardSnap.swap := Decimal.of_Z sw;
     PerpLeaderboardSnap.netProfit := Decimal.of_Z np |}.

Definition createConfig (lr tpr tr : Z) : CalculationConfig :=
  {| CalculationConfig.liquidityRate := Decimal.of_Z lr;
     CalculationConfig.tradeProfitRate := Decimal.of_Z tpr;
     CalculationConfig.tradeRate := Decimal.of_Z tr |}.

Definition defaultConfig : CalculationConfig := createConfig 1 1 1.

Definition liquidityOf (acc : string) (lp : Z)
    (st en : list PerpLiquiditySnap) : PerpLiquidity :=
  {| PerpLiquidity.account := acc; PerpLiquidity.lp := Decimal.of_Z lp;
     PerpLiquidity.start := st; PerpLiquidity.ended := en |}.

Definition leaderboard (acc : string) (tv ctv sw np : Z) (latest : Z)
    (st en : list PerpLeaderboardSnap) (liq : PerpLiquidity)
    : PerpLeaderboard :=
  {| PerpLeaderboard.account := acc;
     PerpLeaderboard.tradingVolume := Decimal.of_Z tv;
     PerpLeaderboard.conditionTradeVolume := Decimal.of_Z ctv;
     PerpLeaderboard.swap := Decimal.of_Z sw;
     PerpLeaderboard.netProfit := Decimal.of_Z np;
     PerpLeaderboard.latestUpdateTimestamp := latest;
     PerpLeaderboard.start := st; PerpLeaderboard.ended := en;
     PerpLeaderboard.liquidity := Some liq |}.

(** Scenario A, 'should calculate integral correctly within time
    segment'. *)
Definition scenarioA_start : PerpLiquiditySnap :=
  liquiditySnap "1" 100 50 1000.
Definition scenarioA_ended : PerpLiquiditySnap :=
  liquiditySnap "2" 200 100 1500.
Definition scenarioA : PerpLiquidity :=
  liquidityOf "test" 100 [scenarioA_start] [scenarioA_ended].

(** 'should return 0 when end snapshot is before start time' *)
Definition stale_ended : PerpLiquiditySnap := liquiditySnap "2" 200 100 800.
Definition stale_liquidity : PerpLiquidity :=
  liquidityOf "test" 100 [liquiditySnap "1" 100 50 500] [stale_ended].

(** 'should return 0 when no snapshots exist' *)
Definition empty_liquidity : PerpLiquidity :=
  liquidityOf "test" 100 [] [].

Definition no_liquidity (acc : string) : PerpLiquidity :=
  liquidityOf acc 0 [] [].

(** 'should apply liquidity limit correctly': [liquidityRate = 2] and a
    liquidity limit of 1000; the test expects 1000 liquidity points. *)
Definition limit_lead : PerpLeaderboard :=
  leaderboard "user1" 0 0 0 0 1500 [] []
    (liquidityOf "user1" 100
       [liquiditySnap "1" 1000 500 1000]
       [liquiditySnap "2" 2000 1000 1400]).

Definition liquidityLimit_config : Spec.LimitedConfig :=
  {| Spec.rates := createConfig 2 1 1;
     Spec.liquidityLimit := Some (Decimal.of_Z 1000);
     Spec.tradeLimit := None;
     Spec.tradeProfitLimit := None |}.

(** 'should apply trade limits correctly': rates 1, a trade limit of 1500
    and a trade-profit limit of 500; the test expects 1500 and 500. *)
Definition big_trader : PerpLeaderboard :=
  leaderboard "user1" 2000 1000 200 1000 1500 [] [] (no_liquidity "user1").

Definition tradeLimit_config : Spec.LimitedConfig :=
  {| Spec.rates := createConfig 1 1 1;
     Spec.liquidityLimit := None;
     Spec.tradeLimit := Some (Decimal.of_Z 1500);
     Spec.tradeProfitLimit := Some (Decimal.of_Z 500) |}.

(** 'should handle trade volume with start snapshot' *)
Definition baseline_start : PerpLeaderboardSnap :=
  leaderboardSnap 200 100 50 10.
Definition baseline_lead : PerpLeaderboard :=
  leaderboard "user1" 1000 500 100 50 1500 [baseline_start] []
    (no_liquidity "user1").

(** 'should handle overtime scenario correctly' *)
Definition overtime_ended : PerpLeaderboardSnap :=
  leaderboardSnap 1200 600 150 60.
Definition overtime_lead : PerpLeaderboard :=
  leaderboard "user1" 1500 750 200 80 2500 [baseline_start] [overtime_ended]
    (no_liquidity "user1").

(** 'should not calculate profit points for negative profit' *)
Definition loss_lead : PerpLeaderboard :=
  leaderboard "user1" 1000 500 100 (-50) 1500 [] [] (no_liquidity "user1").

(** 'should handle multiple users correctly' *)
Definition user1 : PerpLeaderboard :=
  leaderboard "user1" 1000 500 100 50 1500 [] [] (no_liquidity "user1").
Definition user2 : PerpLeaderboard :=
  leaderboard "user2" 2000 1000 200 100 1500 [] [] (no_liquidity "user2").

(** [overtime_lead] with other values in the fields that no point reads. *)
Definition overtime_lead' : PerpLeaderboard :=
  {| PerpLeaderboard.account := "user1";
     PerpLeaderboard.tradingVolume := Decimal.of_Z 1500;
     PerpLeaderboard.conditionTradeVolume := Decimal.of_Z 1;
     PerpLeaderboard.swap := Decimal.of_Z 2;
     PerpLeaderboard.netProfit := Decimal.of_Z 80;
     PerpLeaderboard.latestUpdateTimestamp := 2500;
     PerpLeaderboard.start := [leaderboardSnap 200 3 4 10];
     PerpLeaderboard.ended := [leaderboardSnap 1200 5 6 60];
     PerpLeaderboard.liquidity := Some (liquidityOf "user1" 7 [] []) |}.

End Fixtures.

(** ** The subgraph client (src/subgraph-client.ts, src/subgraph-types.ts)

    The network and the timers are made explicit.
    - The GraphQL endpoint is a [Server]: the answer to a request depends
      on how many requests were made before it and on the query variables
      (the query itself is always [LEADERBOARD_QUERY]).
    - A [World.t] counts the requests made and records, in order, the
      delays of the retry paths (the [setTimeout] of the back-off in
      [executeQuery] and of the pause after a 429 in [fetchAllData]) and
      the arguments that [onProgress] receives when one is given.
    - [waitForRateLimit], which [executeQuery] awaits before each request,
      holds the request back until [1000 / requestsPerSecond] ms have
      passed since the previous one.  It reads the wall clock
      ([Date.now()]) and [lastRequestTime], and changes neither the request
      nor its answer.  The model has no clock: [World.request] stands for
      the throttled request, and the waits of the throttle are not in
      [World.slept].  So nothing below is a statement on the time a call
      takes, or on the timers that the throttle sets.  [console.log] is
      left out as well.
    - [await] is sequencing; a rejected promise is a [Thrown] completion.
    - The [while] loops of [fetchAllData] and [fetchWithOptions] need not
      terminate; they take a bound on the number of iterations and return
      [None] when it is used up.
    - Numbers in the configuration and the query variables are integers. *)

(** [x || d] on a number that may be undefined: [d] when [x] is undefined
    or 0. *)
Definition js_or (x : option Z) (d : Z) : Z :=
  match x with
  | Some v => if v =? 0 then d else v
  | None => d
  end.

(** Truthiness of a string that may be undefined. *)
Definition js_truthy (s : option string) : bool :=
  match s with
  | Some s => negb (String.eqb s "")
  | None => false
  end.

Module SubgraphConfig.
Record t : Set := {
  endpoint : option string;
  requestsPerSecond : option Z;
  maxRetries : option Z;
  retryDelay : option Z
}.
End SubgraphConfig.
Abbreviation SubgraphConfig := SubgraphConfig.t.

(** [Partial<SubgraphConfig>]: each property is absent ([None]) or present
    with a value that may be [undefined] ([Some None]). *)
Module PartialSubgraphConfig.
Record t : Set := {
  endpoint : option (option string);
  requestsPerSecond : option (option Z);
  maxRetries : option (option Z);
  retryDelay : option (option Z)
}.

(** [{}] *)
Definition empty : t :=
  {| endpoint := None; requestsPerSecond := None;
     maxRetries := None; retryDelay := None |}.
End PartialSubgraphConfig.
Abbreviation PartialSubgraphConfig := PartialSubgraphConfig.t.

Definition DEFAULT_SUBGRAPH_CONFIG : SubgraphConfig :=
  {| SubgraphConfig.endpoint :=
       Some "https://api.goat.0xgraph.xyz/api/public/484b3c49-8f28-4a57-b4ae-dc6be91dd78f/subgraphs/goat-perp/v1.0.0/gn"%string;
     SubgraphConfig.requestsPerSecond := Some 5;
     SubgraphConfig.maxRetries := Some 3;
     SubgraphConfig.retryDelay := Some 1000 |}.

(** One property of [{ ...base, ...over }]. *)
Definition spread_property {V : Type} (base : V) (over : option V) : V :=
  match over with
  | Some v => v
  | None => base
  end.

(** [{ ...base, ...over }] *)
Definition spread (base : SubgraphConfig) (over : PartialSubgraphConfig)
    : SubgraphConfig :=
  {| SubgraphConfig.endpoint :=
       spread_property (SubgraphConfig.endpoint base)
                       (PartialSubgraphConfig.endpoint over);
     SubgraphConfig.requestsPerSecond :=
       spread_property (SubgraphConfig.requestsPerSecond base)
                       (PartialSubgraphConfig.requestsPerSecond over);
     SubgraphConfig.maxRetries :=
       spread_property (SubgraphConfig.maxRetries base)
                       (PartialSubgraphConfig.maxRetries over);
     SubgraphConfig.retryDelay :=
       spread_property (SubgraphConfig.retryDelay base)
                       (PartialSubgraphConfig.retryDelay over) |}.

(** [{ ...a, ...b }] on two partial configurations. *)
Definition spread_partial (a b : PartialSubgraphConfig)
    : PartialSubgraphConfig :=
  {| PartialSubgraphConfig.endpoint :=
       spread_property (PartialSubgraphConfig.endpoint a)
                       (option_map Some (PartialSubgraphConfig.endpoint b));
     PartialSubgraphConfig.requestsPerSecond :=
       spread_property
         (PartialSubgraphConfig.requestsPerSecond a)
         (option_map Some (PartialSubgraphConfig.requestsPerSecond b));
     PartialSubgraphConfig.maxRetries :=
       spread_property (PartialSubgraphConfig.maxRetries a)
                       (option_map Some (PartialSubgraphConfig.maxRetries b));
     PartialSubgraphConfig.retryDelay :=
       spread_property (PartialSubgraphConfig.retryDelay a)
                       (option_map Some (PartialSubgraphConfig.retryDelay b))
  |}.

(** The error classes.  [errorClass] is what [instanceof] tests; [name] is
    set by the constructor of [SubgraphError] and not changed by the
    subclasses. *)
Inductive ErrorClass : Set :=
| IsSubgraphError
| IsRateLimitError
| IsNetworkError.

Module SubgraphError.
Record t : Set := {
  errorClass : ErrorClass;
  name : string;
  message : string;
  code : option string;
  statusCode : option Z
}.

(** [Error.prototype.toString], what a template string makes of an error. *)
Definition toString (e : t) : string :=
  if String.eqb (name e) "" then message e
  else if String.eqb (message e) "" then name e
  else (name e ++ ": " ++ message e)%string.
End SubgraphError.
Abbreviation SubgraphError := SubgraphError.t.

Definition newSubgraphError
    (message : string) (code : option string) (statusCode : option Z)
    : SubgraphError :=
  {| SubgraphError.errorClass := IsSubgraphError;
     SubgraphError.name := "SubgraphError";
     SubgraphError.message := message;
     SubgraphError.code := code;
     SubgraphError.statusCode := statusCode |}.

Definition newRateLimitError (message : option string) : SubgraphError :=
  {| SubgraphError.errorClass := IsRateLimitError;
     SubgraphError.name := "SubgraphError";
     SubgraphError.message :=
       match message with
       | Some m => m
       | None => "Rate limit exceeded"
       end;
     SubgraphError.code := Some "RATE_LIMIT"%string;
     SubgraphError.statusCode := Some 429 |}.

Definition newNetworkError (message : string) (statusCode : option Z)
    : SubgraphError :=
  {| SubgraphError.errorClass := IsNetworkError;
     SubgraphError.name := "SubgraphError";
     SubgraphError.message := message;
     SubgraphError.code := Some "NETWORK_ERROR"%string;
     SubgraphError.statusCode := statusCode |}.

(** [error instanceof RateLimitError] *)
Definition instanceofRateLimitError (e : SubgraphError) : bool :=
  match SubgraphError.errorClass e with
  | IsRateLimitError => true
  | _ => false
  end.

(** What [client.request] throws: [error.message] and
    [error.response?.status]. *)
Module RequestError.
Record t : Set := {
  message : string;
  status : option Z
}.
End RequestError.
Abbreviation RequestError := RequestError.t.

Module SubgraphQueryVariables.
Record t : Set := {
  skip : Z;
  epochBegin : Z;
  epochEnded : Z
}.
End SubgraphQueryVariables.
Abbreviation SubgraphQueryVariables := SubgraphQueryVariables.t.

Module PaginationInfo.
Record t : Set := {
  skip : Z;
  hasMore : bool;
  totalFetched : Z
}.
End PaginationInfo.
Abbreviation PaginationInfo := PaginationInfo.t.

(** [SubgraphQueryResponse]: [data] may be missing. *)
Module SubgraphQueryResponse.
Record t (Row : Type) : Type := {
  data : option (list Row)
}.
Arguments data {Row} _.
End SubgraphQueryResponse.
Abbreviation SubgraphQueryResponse := SubgraphQueryResponse.t.

Module FetchResult.
Record t (Row : Type) : Type := {
  data : list Row;
  pagination : PaginationInfo
}.
Arguments data {Row} _.
Arguments pagination {Row} _.
End FetchResult.
Abbreviation FetchResult := FetchResult.t.

(** The result of [getDataStats]. *)
Module DataStatsResult.
Record t (Row : Type) : Type := {
  totalRecords : Z;
  sampleData : list Row
}.
Arguments totalRecords {Row} _.
Arguments sampleData {Row} _.
End DataStatsResult.

Module World.
Record t : Set := {
  requests : nat;
  slept : list Z;
  progress : list PaginationInfo
}.

Definition initial : t := {| requests := 0; slept := []; progress := [] |}.

(** [await this.waitForRateLimit(); await this.client.request(...)]: one
    more request was sent, after the wait of the throttle, which is not
    recorded. *)
Definition request (w : t) : t :=
  {| requests := S (requests w); slept := slept w;
     progress := progress w |}.

(** [await new Promise(resolve => setTimeout(resolve, ms))] in a retry
    path: the back-off of [executeQuery], the pause of [fetchAllData] after
    a 429. *)
Definition sleep (ms : Z) (w : t) : t :=
  {| requests := requests w; slept := slept w ++ [ms];
     progress := progress w |}.

(** [onProgress(info)] *)
Definition report (info : PaginationInfo) (w : t) : t :=
  {| requests := requests w; slept := slept w;
     progress := progress w ++ [info] |}.
End World.

Inductive Completion (T : Type) : Type :=
| Returned (value : T)
| Thrown (error : SubgraphError).
Arguments Returned {T} _.
Arguments Thrown {T} _.

(** The endpoint: the [n]-th request, with its variables, is answered by a
    response or fails. *)
Definition Server (Row : Type) : Type :=
  nat -> SubgraphQueryVariables -> SubgraphQueryResponse Row + RequestError.

(** [error.response?.status === n] and [error.response?.status >= n]; both
    are false when there is no status. *)
Definition status_is (error : RequestError) (n : Z) : bool :=
  match RequestError.status error with
  | Some s => s =? n
  | None => false
  end.

Definition status_ge (error : RequestError) (n : Z) : bool :=
  match RequestError.status error with
  | Some s => n <=? s
  | None => false
  end.

(** The options of [fetchWithOptions]. *)
Module FetchOptions.
Record t : Type := {
  epochBegin : Z;
  epochEnded : Z;
  maxRecords : option Z;
  startFrom : option Z;
  onError : option (SubgraphError -> Z -> bool)
}.
End FetchOptions.

Module SubgraphClient.

(** The object: the endpoint the [GraphQLClient] was created with, and the
    configuration. *)
Record t : Set := {
  client : option string;
  config : SubgraphConfig
}.

Definition constructor (config : PartialSubgraphConfig) : t :=
  let config := spread DEFAULT_SUBGRAPH_CONFIG config in
  {| client := SubgraphConfig.endpoint config; config := config |}.

Definition updateConfig (newConfig : PartialSubgraphConfig) (this : t) : t :=
  let config := spread (config this) newConfig in
  {| client :=
       if match PartialSubgraphConfig.endpoint newConfig with
          | Some endpoint => js_truthy endpoint
          | None => false
          end
       then SubgraphConfig.endpoint config
       else client this;
     config := config |}.

Definition getConfig (this : t) : SubgraphConfig :=
  spread (config this) PartialSubgraphConfig.empty.

Section Requests.

Context {Row : Type}.
Variable server : Server Row.
Variable this : t.

(** [executeQuery].  The first statement of its [try] block,
    [await this.waitForRateLimit()], and the request that follows are one
    step, [World.request]: the throttle waits for the clock and has no
    other effect.

    The unfolding equation of [executeQuery] is proved below without
    functional extensionality, so that nothing here rests on an axiom. *)
#[local] Unset Equations With Funext.
#[local] Set Warnings "-solve_obligation_error".

Equations? executeQuery
    (variables : SubgraphQueryVariables) (retryCount : nat) (w : World.t)
    : Completion (SubgraphQueryResponse Row) * World.t
    by wf (Z.to_nat (js_or (SubgraphConfig.maxRetries (config this)) 3
                     - Z.of_nat retryCount)) lt :=
executeQuery variables retryCount w :=
  let w' := World.request w in
  match server (World.requests w) variables with
  | inl result => (Returned result, w')
  | inr error =>
    if status_is error 429
    then (Thrown (newRateLimitError (Some "Rate limit exceeded"%string)), w')
    else if status_ge error 500 then
      match Z_lt_dec (Z.of_nat retryCount)
                     (js_or (SubgraphConfig.maxRetries (config this)) 3) with
      | left _ =>
        let delay :=
          js_or (SubgraphConfig.retryDelay (config this)) 1000
          * 2 ^ Z.of_nat retryCount in
        executeQuery variables (S retryCount) (World.sleep delay w')
      | right _ =>
        (Thrown (newNetworkError
                   ("Server error: " ++ RequestError.message error)%string
                   (RequestError.status error)), w')
      end
    else if status_ge error 400 then
      (Thrown (newSubgraphError
                 ("Client error: " ++ RequestError.message error)%string
                 (Some "CLIENT_ERROR"%string)
                 (RequestError.status error)), w')
    else
      match Z_lt_dec (Z.of_nat retryCount)
                     (js_or (SubgraphConfig.maxRetries (config this)) 3) with
      | left _ =>
        let delay :=
          js_or (SubgraphConfig.retryDelay (config this)) 1000
          * 2 ^ Z.of_nat retryCount in
        executeQuery variables (S retryCount) (World.sleep delay w')
      | right _ =>
        (Thrown (newNetworkError
                   ("Network error: " ++ RequestError.message error)%string
                   None), w')
      end
  end.
Proof. all: lia. Qed.
Next Obligation.
  unfold executeQuery.
  match goal with
  | |- context [ @FixWf ?A ?R ?WF ?P ?f ?x ] =>
    let step := fresh in
    set (step := fun y (_ : R y x) => @FixWf A R WF P f y) in *;
    unshelve erewrite (@FixWf_unfold_step A R WF P f x _ step)
  end.
  - intros x f g Hfg. unfold executeQuery_functional. cbn zeta.
    destruct (server _ _) as [result|error]; [reflexivity|].
    destruct (status_is error 429); [reflexivity|].
    destruct (status_ge error 500), (status_ge error 400);
      try reflexivity;
      (destruct (Z_lt_dec _ _); [apply Hfg | reflexivity]).
  - reflexivity.
  - reflexivity.
Defined.

#[local] Set Warnings "+solve_obligation_error".

Definition fetchPage (epochBegin epochEnded skip : Z) (w : World.t)
    : Completion (FetchResult Row) * World.t :=
  let variables :=
    {| SubgraphQueryVariables.skip := skip;
       SubgraphQueryVariables.epochBegin := epochBegin;
       SubgraphQueryVariables.epochEnded := epochEnded |} in
  match executeQuery variables 0 w with
  | (Returned response, w) =>
    let data :=
      match SubgraphQueryResponse.data response with
      | Some data => data
      | None => []
      end in
    let hasMore := (List.length data =? 1000)%nat in
    (Returned
       {| FetchResult.data := data;
          FetchResult.pagination :=
            {| PaginationInfo.skip := skip;
               PaginationInfo.hasMore := hasMore;
               PaginationInfo.totalFetched :=
                 skip + Z.of_nat (List.length data) |} |}, w)
  | (Thrown error, w) => (Thrown error, w)
  end.



(** [!maxRecords || allData.length < maxRecords] *)
Definition below_maxRecords (maxRecords : option Z) (allData : list Row)
    : bool :=
  match maxRecords with
  | Some m => (m =? 0) || (Z.of_nat (List.length allData) <? m)
  | None => true
  end.

(** The loop of [fetchWithOptions], at most [fuel] iterations. *)
Fixpoint fetchWithOptions_loop (fuel : nat) (options : FetchOptions.t)
    (allData : list Row) (skip : Z) (hasMore : bool) (w : World.t)
    : option (Completion (list Row) * World.t) :=
  let maxRecords := FetchOptions.maxRecords options in
  if hasMore && below_maxRecords maxRecords allData then
    match fuel with
    | O => None
    | S fuel =>
      match fetchPage (FetchOptions.epochBegin options)
                      (FetchOptions.epochEnded options) skip w with
      | (Returned result, w) =>
        let recordsToAdd :=
          match maxRecords with
          | Some m =>
            if m =? 0 then FetchResult.data result
            else firstn
                   (Z.to_nat (Z.max 0 (m - Z.of_nat (List.length allData))))
                   (FetchResult.data result)
          | None => FetchResult.data result
          end in
        let allData := allData ++ recordsToAdd in
        let hasMore :=
          PaginationInfo.hasMore (FetchResult.pagination result)
          && below_maxRecords maxRecords allData in
        let skip := skip + 1000 in
        let w :=
          World.report
            {| PaginationInfo.skip := skip;
               PaginationInfo.hasMore := hasMore;
               PaginationInfo.totalFetched :=
                 Z.of_nat (List.length allData) |} w in
        let hasMore :=
          if (List.length (FetchResult.data result) <? 1000)%nat
          then false else hasMore in
        fetchWithOptions_loop fuel options allData skip hasMore w
      | (Thrown error, w) =>
        let shouldRetry :=
          match FetchOptions.onError options with
          | Some onError => onError error skip
          | None => false
          end in
        if negb shouldRetry then Some (Thrown error, w)
        else fetchWithOptions_loop fuel options allData skip hasMore w
      end
    end
  else Some (Returned allData, w).

Definition fetchWithOptions (fuel : nat) (options : FetchOptions.t)
    (w : World.t) : option (Completion (list Row) * World.t) :=
  let startFrom :=
    match FetchOptions.startFrom options with
    | Some s => s
    | None => 0
    end in
  fetchWithOptions_loop fuel options [] startFrom true w.

Definition getDataStats (epochBegin epochEnded : Z) (w : World.t)
    : Completion (DataStatsResult.t Row) * World.t :=
  match fetchPage epochBegin epochEnded 0 w with
  | (Returned firstPage, w) =>
    if (List.length (FetchResult.data firstPage) <? 1000)%nat then
      (Returned
         {| DataStatsResult.totalRecords :=
              Z.of_nat (List.length (FetchResult.data firstPage));
            DataStatsResult.sampleData :=
              firstn 5 (FetchResult.data firstPage) |},
       w)
    else
      (Returned
         {| DataStatsResult.totalRecords :=
              Z.of_nat (List.length (FetchResult.data firstPage));
            DataStatsResult.sampleData :=
              firstn 5 (FetchResult.data firstPage) |},
       w)
  | (Thrown error, w) =>
    (Thrown (newSubgraphError
               ("Failed to get data stats: "
                ++ SubgraphError.toString error)%string
               None None), w)
  end.

End Requests.

End SubgraphClient.

(** ** Vocabulary for the properties of the client *)

Module ClientSpec.

(** [maxRetries || 3] and [retryDelay || 1000]. *)
Definition effectiveMaxRetries (this : SubgraphClient.t) : Z :=
  js_or (SubgraphConfig.maxRetries (SubgraphClient.config this)) 3.

Definition effectiveRetryDelay (this : SubgraphClient.t) : Z :=
  js_or (SubgraphConfig.retryDelay (SubgraphClient.config this)) 1000.

(** The delays before the retries number [first], ..., [first + k - 1]:
    [retryDelay * 2 ^ retryCount]. *)
Definition backoff (this : SubgraphClient.t) (first k : nat) : list Z :=
  map (fun retryCount => effectiveRetryDelay this * 2 ^ Z.of_nat retryCount)
      (seq first k).

(** A failure that [executeQuery] answers with a retry when it has retries
    left: a status of 500 or more, or no status below 400 that is 429. *)
Definition retryable (error : RequestError) : bool :=
  negb (status_is error 429)
  && (status_ge error 500 || negb (status_ge error 400)).

(** The world after [k] more requests and the given delays. *)
Definition after (w : World.t) (k : nat) (delays : list Z) : World.t :=
  {| World.requests := World.requests w + k;
     World.slept := World.slept w ++ delays;
     World.progress := World.progress w |}.

(** An endpoint that holds [dataset] and answers every request as
    [LEADERBOARD_QUERY] asks: [leaderboards(first: 1000, skip: $skip)]. *)
Definition paged {Row : Type} (dataset : list Row) : Server Row :=
  fun _ variables =>
    inl {| SubgraphQueryResponse.data :=
             Some (firstn 1000
                     (skipn (Z.to_nat (SubgraphQueryVariables.skip variables))
                            dataset)) |}.


End ClientSpec.

(** ** Vocabulary for further properties of the engine *)

Module EngineSpec.

(** The integral of a record's liquidity over the window, 0 without a
    liquidity record. *)
Definition liquidityIntegral
    (windowStart windowEnd : Z) (r : PerpLeaderboard) : Decimal :=
  match PerpLeaderboard.liquidity r with
  | Some liquidity =>
    calculateLiquidityPointBase liquidity windowStart windowEnd
  | None => Decimal.zero
  end.

(** The trading volume of the window: the effective end volume less the
    start snapshot's, when there is one. *)
Definition volumeInWindow
    (overtime : bool) (windowEnd : Z) (r : PerpLeaderboard) : Decimal :=
  match hd_error (PerpLeaderboard.start r) with
  | Some s =>
    Decimal.sub (Spec.effectiveEndVolume overtime windowEnd r)
                (PerpLeaderboardSnap.tradingVolume s)
  | None => Spec.effectiveEndVolume overtime windowEnd r
  end.

(** The net profit of the window. *)
Definition profitInWindow
    (overtime : bool) (windowEnd : Z) (r : PerpLeaderboard) : Decimal :=
  Spec.netProfitInWindow (Spec.effectiveEndProfit overtime windowEnd r) r.

(** Two records with the same trading data (their liquidity may differ). *)
Definition same_trading (r1 r2 : PerpLeaderboard) : Prop :=
  PerpLeaderboard.account r1 = PerpLeaderboard.account r2
  /\ PerpLeaderboard.tradingVolume r1 = PerpLeaderboard.tradingVolume r2
  /\ PerpLeaderboard.netProfit r1 = PerpLeaderboard.netProfit r2
  /\ PerpLeaderboard.latestUpdateTimestamp r1
     = PerpLeaderboard.latestUpdateTimestamp r2
  /\ PerpLeaderboard.start r1 = PerpLeaderboard.start r2
  /\ PerpLeaderboard.ended r1 = PerpLeaderboard.ended r2.

(** Two records with the same liquidity (their trading data may differ). *)
Definition same_liquidity (r1 r2 : PerpLeaderboard) : Prop :=
  PerpLeaderboard.liquidity r1 = PerpLeaderboard.liquidity r2.

(** A record has no liquidity history in the window starting at
    [windowStart]: no liquidity record, no ended snapshot, or an ended
    snapshot older than the window. *)
Definition no_liquidity_history (windowStart : Z) (r : PerpLeaderboard)
    : Prop :=
  match PerpLeaderboard.liquidity r with
  | None => True
  | Some liquidity =>
    match PerpLiquidity.ended liquidity with
    | [] => True
    | e :: _ => PerpLiquiditySnap.timestamp e < windowStart
    end
  end.

(** The trading part of a result. *)
Definition tradingPart (p : UserPoints) : string * Decimal * Decimal :=
  (UserPoints.account p, UserPoints.volume_usd p,
   UserPoints.realized_pnl_net_usd p).

End EngineSpec.

Module MoreFixtures.

(** Snapshots whose running integrals agree: 500 s at a liquidity of 100
    separate them, [50050 = 50 + 500 * 100]. *)
Definition consistent_start : PerpLiquiditySnap :=
  Fixtures.liquiditySnap "1" 100 50 1000.
Definition consistent_ended : PerpLiquiditySnap :=
  Fixtures.liquiditySnap "2" 200 50050 1500.
Definition consistent_liquidity : PerpLiquidity :=
  Fixtures.liquidityOf "lp" 200 [consistent_start] [consistent_ended].

(** Amounts of more than 20 digits: a liquidity of 21 digits held for 3 s,
    and a trading volume of 30 digits over a start snapshot of volume 0. *)
Definition long_ended : PerpLiquiditySnap :=
  Fixtures.liquiditySnap "2" 123456789012345678901 0 1000.
Definition long_liquidity : PerpLiquidity :=
  Fixtures.liquidityOf "lp" 123456789012345678901 [] [long_ended].

(** [Fixtures.baseline_lead] with a liquidity history. *)
Definition baseline_lead_with_liquidity : PerpLeaderboard :=
  Fixtures.leaderboard "user1" 1000 500 100 50 1500
    [Fixtures.baseline_start] [] consistent_liquidity.

(** [Fixtures.limit_lead] with trading activity. *)
Definition limit_lead_trading : PerpLeaderboard :=
  Fixtures.leaderboard "user1" 700 0 0 (-30) 1500 [] []
    (Fixtures.liquidityOf "user1" 100
       [Fixtures.liquiditySnap "1" 1000 500 1000]
       [Fixtures.liquiditySnap "2" 2000 1000 1400]).

End MoreFixtures.

Module RetrySpec.

(** The error [executeQuery] throws when a retryable failure finds no retry
    left. *)
Definition giveUp (error : RequestError) : SubgraphError :=
  if status_ge error 500
  then newNetworkError ("Server error: " ++ RequestError.message error)%string
                       (RequestError.status error)
  else newNetworkError ("Network error: " ++ RequestError.message error)%string
                       None.

(** The requests number [first], ..., [first + k - 1] fail and are
    retryable. *)
Definition transient {Row : Type} (server : Server Row)
    (variables : SubgraphQueryVariables) (first k : nat) : Prop :=
  forall i, (i < k)%nat ->
    exists error,
      server (first + i)%nat variables = inr error
      /\ ClientSpec.retryable error = true.

(** [this] with another [maxRetries] / [retryDelay]. *)
Definition withMaxRetries (maxRetries : option Z) (this : SubgraphClient.t)
    : SubgraphClient.t :=
  SubgraphClient.updateConfig
    {| PartialSubgraphConfig.endpoint := None;
       PartialSubgraphConfig.requestsPerSecond := None;
       PartialSubgraphConfig.maxRetries := Some maxRetries;
       PartialSubgraphConfig.retryDelay := None |} this.

Definition withRetryDelay (retryDelay : option Z) (this : SubgraphClient.t)
    : SubgraphClient.t :=
  SubgraphClient.updateConfig
    {| PartialSubgraphConfig.endpoint := None;
       PartialSubgraphConfig.requestsPerSecond := None;
       PartialSubgraphConfig.maxRetries := None;
       PartialSubgraphConfig.retryDelay := Some retryDelay |} this.

(** The shapes of the errors that [executeQuery] throws. *)
Definition wellFormedError (e : SubgraphError) : Prop :=
  SubgraphError.name e = "SubgraphError"%string
  /\ SubgraphError.message e <> ""%string
  /\ match SubgraphError.errorClass e with
     | IsRateLimitError =>
       SubgraphError.message e = "Rate limit exceeded"%string
       /\ SubgraphError.code e = Some "RATE_LIMIT"%string
       /\ SubgraphError.statusCode e = Some 429
     | IsNetworkError =>
       SubgraphError.code e = Some "NETWORK_ERROR"%string
       /\ match SubgraphError.statusCode e with
          | Some s => 500 <= s
          | None => True
          end
     | IsSubgraphError =>
       SubgraphError.code e = Some "CLIENT_ERROR"%string
       /\ match SubgraphError.statusCode e with
          | Some s => 400 <= s < 500 /\ s <> 429
          | None => False
          end
     end.

End RetrySpec.

Module PagingSpec.

(** From its request number [n0] on, [server] answers as an endpoint that
    holds [dataset]. *)
Definition paged_from {Row : Type} (server : Server Row)
    (dataset : list Row) (n0 : nat) : Prop :=
  forall n variables,
    (n0 <= n)%nat -> server n variables = ClientSpec.paged dataset n variables.

(** Page [j] of a dataset. *)
Definition pageOf {Row : Type} (dataset : list Row) (j : nat) : list Row :=
  firstn 1000 (skipn (1000 * j) dataset).



(** The variables of the request for the records from [skip] on. *)
Definition variablesAt (epochBegin epochEnded skip : Z)
    : SubgraphQueryVariables :=
  {| SubgraphQueryVariables.skip := skip;
     SubgraphQueryVariables.epochBegin := epochBegin;
     SubgraphQueryVariables.epochEnded := epochEnded |}.


(** What [fetchWithOptions] is expected to return of the records [rows]
    that follow [startFrom]. *)
Definition expectedRecords {Row : Type} (maxRecords : option Z)
    (rows : list Row) : list Row :=
  match maxRecords with
  | Some m => if m =? 0 then rows else firstn (Z.to_nat m) rows
  | None => rows
  end.

End PagingSpec.

Module ClientFixtures.

(** [new SubgraphClient()] *)
Definition defaultClient : SubgraphClient.t :=
  SubgraphClient.constructor PartialSubgraphConfig.empty.

(** [new SubgraphClient({ maxRetries: 0, retryDelay: 0 })] *)
Definition zeroClient : SubgraphClient.t :=
  SubgraphClient.constructor
    {| PartialSubgraphConfig.endpoint := None;
       PartialSubgraphConfig.requestsPerSecond := None;
       PartialSubgraphConfig.maxRetries := Some (Some 0);
       PartialSubgraphConfig.retryDelay := Some (Some 0) |}.

Definition someVariables : SubgraphQueryVariables :=
  PagingSpec.variablesAt 1000 2000 0.

Definition failure (message : string) (status : Z) : RequestError :=
  {| RequestError.message := message; RequestError.status := Some status |}.

Definition threeRows : SubgraphQueryResponse nat :=
  {| SubgraphQueryResponse.data := Some [1; 2; 3]%nat |}.

(** Two bad gateways, then an answer. *)
Definition flakyServer : Server nat :=
  fun n _ =>
    if (n <? 2)%nat then inr (failure "Bad Gateway" 502) else inl threeRows.

(** A bad gateway, then a 404. *)
Definition lostServer : Server nat :=
  fun n _ =>
    if (n <? 1)%nat then inr (failure "Bad Gateway" 502)
    else inr (failure "Not Found" 404).

(** Always unavailable. *)
Definition downServer : Server nat :=
  fun _ _ => inr (failure "Service Unavailable" 503).

(** Always rate limited. *)
Definition busyServer : Server nat :=
  fun _ _ => inr (failure "Too Many Requests" 429).


(** 2500 records. *)
Definition dataset : list nat := seq 0 2500.

(** An [onError] that always asks for a retry. *)
Definition alwaysRetry : SubgraphError -> Z -> bool := fun _ _ => true.

Definition options (maxRecords startFrom : option Z)
    (onError : option (SubgraphError -> Z -> bool)) : FetchOptions.t :=
  {| FetchOptions.epochBegin := 1000;
     FetchOptions.epochEnded := 2000;
     FetchOptions.maxRecords := maxRecords;
     FetchOptions.startFrom := startFrom;
     FetchOptions.onError := onError |}.

(** [{ requestsPerSecond: 10 }] and [{ endpoint: '' }] *)
Definition tenPerSecond : PartialSubgraphConfig :=
  {| PartialSubgraphConfig.endpoint := None;
     PartialSubgraphConfig.requestsPerSecond := Some (Some 10);
     PartialSubgraphConfig.maxRetries := None;
     PartialSubgraphConfig.retryDelay := None |}.

Definition emptyEndpoint : PartialSubgraphConfig :=
  {| PartialSubgraphConfig.endpoint := Some (Some ""%string);
     PartialSubgraphConfig.requestsPerSecond := None;
     PartialSubgraphConfig.maxRetries := None;
     PartialSubgraphConfig.retryDelay := None |}.

End ClientFixtures.

(** ** Rounding to 20 significant digits *)

Section Digits.

Lemma ndigits_fuel_spec (fuel : nat) :
  forall a,
    0 < a < 2 ^ Z.of_nat fuel ->
    1 <= Decimal.ndigits_fuel fuel a
    /\ 10 ^ (Decimal.ndigits_fuel fuel a - 1) <= a
       < 10 ^ Decimal.ndigits_fuel fuel a.
Proof.
  induction fuel as [|fuel IH]; intros a Ha.
  - cbn in Ha. lia.
  - cbn [Decimal.ndigits_fuel]. destruct (Z.ltb_spec a 10) as [Hlt|Hge].
    + cbn. lia.
    + assert (Hq : 0 < a / 10 < 2 ^ Z.of_nat fuel).
      { split.
        - apply Z.div_str_pos. lia.
        - apply Z.div_lt_upper_bound; [lia|].
          rewrite Nat2Z.inj_succ, Z.pow_succ_r in Ha by lia. lia. }
      destruct (IH _ Hq) as (H1 & Hlo & Hhi).
      set (d := Decimal.ndigits_fuel fuel (a / 10)) in *.
      replace (1 + d - 1) with (Z.succ (d - 1)) by lia.
      replace (1 + d) with (Z.succ d) by lia.
      rewrite !Z.pow_succ_r by lia.
      pose proof (Z.div_mod a 10 ltac:(lia)) as Hdm.
      pose proof (Z.mod_pos_bound a 10 ltac:(lia)) as Hm.
      lia.
Qed.

(** A positive integer of [d] digits lies in [10^(d-1), 10^d). *)
Lemma ndigits_spec (a : Z) :
  0 < a ->
  1 <= Decimal.ndigits a
  /\ 10 ^ (Decimal.ndigits a - 1) <= a < 10 ^ Decimal.ndigits a.
Proof.
  intro Ha. apply ndigits_fuel_spec. split; [exact Ha|].
  rewrite Nat2Z.inj_succ, Z2Nat.id by apply Z.log2_nonneg.
  apply Z.log2_spec. exact Ha.
Qed.

End Digits.

Section Rounding.

Local Open Scope Q_scope.

Lemma ten_pos : 0 < 10.
Proof. reflexivity. Qed.

Lemma ten_gt_1 : 1 < 10.
Proof. reflexivity. Qed.

Lemma ten_neq_0 : ~ 10 == 0.
Proof. discriminate. Qed.

Lemma pow10_pos (k : Z) : 0 < 10 ^ k.
Proof. apply Qpower_0_lt, ten_pos. Qed.

Lemma pow10_inject (n : Z) : (0 <= n)%Z -> inject_Z (10 ^ n) == 10 ^ n.
Proof. intro H. now rewrite Zpower_Qpower. Qed.

Lemma pow10_cancel (a b : Z) : 10 ^ a * 10 ^ b == 10 ^ (a + b).
Proof. now rewrite Qpower_plus by apply ten_neq_0. Qed.


Lemma Q_num_den (q : Q) :
  q * inject_Z (Zpos (Qden q)) == inject_Z (Qnum q).
Proof.
  destruct q as [a b]. unfold Qeq, Qmult, inject_Z. cbn.
  rewrite Pos.mul_1_r. ring.
Qed.

Lemma Qopp_pos (q : Q) : q < 0 -> 0 < - q.
Proof. intro H. apply Qopp_lt_compat in H. exact H. Qed.


(** *** The exponent *)

(** The difference of the numbers of digits is the exponent, or one more. *)
Lemma exponent_estimate (q : Q) :
  0 < q ->
  let e0 :=
    (Decimal.ndigits (Qnum q) - Decimal.ndigits (Zpos (Qden q)))%Z in
  10 ^ (e0 - 1) <= q /\ q < 10 ^ (e0 + 1).
Proof.
  intros Hq e0.
  assert (Ha : (0 < Qnum q)%Z).
  { destruct q as [a b]. unfold Qlt in Hq. cbn in *. lia. }
  destruct (ndigits_spec _ Ha) as (Hda & Halo & Hahi).
  destruct (ndigits_spec (Zpos (Qden q)) ltac:(lia))
    as (Hdb & Hblo & Hbhi).
  set (da := Decimal.ndigits (Qnum q)) in *.
  set (db := Decimal.ndigits (Zpos (Qden q))) in *.
  pose proof (Q_num_den q) as Hnd.
  set (b := inject_Z (Zpos (Qden q))) in *.
  assert (Hb : 0 < b) by (unfold b; rewrite <- (Zlt_Qlt 0); lia).
  split.
  - apply Qmult_le_r with (z := b); [exact Hb|].
    rewrite Hnd.
    apply Qle_trans with (10 ^ (e0 - 1) * 10 ^ db).
    + apply Qmult_le_l; [apply pow10_pos|].
      rewrite <- pow10_inject by lia. unfold b.
      rewrite <- Zle_Qle. lia.
    + rewrite pow10_cancel.
      replace (e0 - 1 + db)%Z with (da - 1)%Z by (unfold e0; lia).
      rewrite <- pow10_inject by lia. rewrite <- Zle_Qle. lia.
  - apply Qmult_lt_r with (z := b); [exact Hb|].
    rewrite Hnd.
    apply Qlt_le_trans with (10 ^ da).
    + rewrite <- pow10_inject by lia. rewrite <- Zlt_Qlt. lia.
    + replace da with (e0 + 1 + (db - 1))%Z at 1 by (unfold e0; lia).
      rewrite <- pow10_cancel.
      apply Qmult_le_l; [apply pow10_pos|].
      rewrite <- pow10_inject by lia. unfold b.
      rewrite <- Zle_Qle. lia.
Qed.

Lemma exponent_spec (q : Q) :
  0 < q ->
  10 ^ Decimal.exponent q <= q /\ q < 10 ^ (Decimal.exponent q + 1).
Proof.
  intro Hq. destruct (exponent_estimate q Hq) as [Hlo Hhi].
  unfold Decimal.exponent.
  set (e0 := (Decimal.ndigits (Qnum q)
              - Decimal.ndigits (Zpos (Qden q)))%Z) in *.
  destruct (Qle_bool (10 ^ e0) q) eqn:Hb.
  - split; [now apply Qle_bool_iff | exact Hhi].
  - split; [exact Hlo|].
    replace (e0 - 1 + 1)%Z with e0 by lia.
    apply Qnot_le_lt. intro Hle. apply Qle_bool_iff in Hle. congruence.
Qed.



Lemma exponent_mono (q1 q2 : Q) :
  0 < q1 -> q1 <= q2 -> (Decimal.exponent q1 <= Decimal.exponent q2)%Z.
Proof.
  intros H1 Hle.
  assert (H2 : 0 < q2) by (eapply Qlt_le_trans; eassumption).
  destruct (exponent_spec q1 H1) as [Hlo1 _].
  destruct (exponent_spec q2 H2) as [_ Hhi2].
  assert (H : (Decimal.exponent q1 < Decimal.exponent q2 + 1)%Z).
  { apply Qpower_lt_compat_l_inv with (q := 10); [|apply ten_gt_1].
    eapply Qle_lt_trans; [exact Hlo1|].
    eapply Qle_lt_trans; eassumption. }
  lia.
Qed.

(** *** The mantissa *)

(** Scaled by its exponent, a positive rational has 20 digits before the
    point. *)
Lemma scaled_bounds (q : Q) :
  0 < q ->
  let m := q * 10 ^ (Decimal.precision - 1 - Decimal.exponent q) in
  10 ^ (Decimal.precision - 1) <= m /\ m < 10 ^ Decimal.precision.
Proof.
  intros Hq m. unfold m.
  destruct (exponent_spec q Hq) as [Hlo Hhi].
  set (e := Decimal.exponent q) in *. split.
  - replace (Decimal.precision - 1)%Z
      with (e + (Decimal.precision - 1 - e))%Z at 1 by lia.
    rewrite <- pow10_cancel.
    apply Qmult_le_r; [apply pow10_pos | exact Hlo].
  - replace Decimal.precision
      with (e + 1 + (Decimal.precision - 1 - e))%Z at 2 by lia.
    rewrite <- pow10_cancel.
    apply Qmult_lt_r; [apply pow10_pos | exact Hhi].
Qed.

(** The mantissa has 20 digits, or is [10^20] when the rounding carries
    into a 21st. *)
Lemma mantissa_bounds (q : Q) :
  0 < q ->
  (10 ^ (Decimal.precision - 1) <= Decimal.mantissa q
   <= 10 ^ Decimal.precision)%Z.
Proof.
  intro Hq. destruct (scaled_bounds q Hq) as [Hlo Hhi].
  unfold Decimal.mantissa.
  set (m := q * 10 ^ (Decimal.precision - 1 - Decimal.exponent q)) in *.
  split.
  - rewrite <- (Qfloor_Z (10 ^ (Decimal.precision - 1))).
    apply Qfloor_resp_le.
    rewrite pow10_inject by (unfold Decimal.precision; lia).
    apply Qle_trans with m; [exact Hlo|].
    rewrite <- (Qplus_0_r m) at 1. apply Qplus_le_r. discriminate.
  - assert (H : inject_Z (Qfloor (m + (1 # 2)))
                < inject_Z (10 ^ Decimal.precision + 1)).
    { eapply Qle_lt_trans; [apply Qfloor_le|].
      rewrite inject_Z_plus, pow10_inject
        by (unfold Decimal.precision; lia).
      apply Qplus_lt_le_compat; [exact Hhi | discriminate]. }
    rewrite <- Zlt_Qlt in H. lia.
Qed.

(** *** Rounding a positive rational *)


Lemma round_pos_bounds (q : Q) :
  0 < q ->
  10 ^ Decimal.exponent q <= Decimal.round_pos q
  /\ Decimal.round_pos q <= 10 ^ (Decimal.exponent q + 1).
Proof.
  intro Hq. destruct (mantissa_bounds q Hq) as [Hlo Hhi].
  unfold Decimal.round_pos. set (e := Decimal.exponent q). split.
  - replace e
      with (Decimal.precision - 1 + (e - (Decimal.precision - 1)))%Z
      at 1 by lia.
    rewrite <- pow10_cancel.
    apply Qmult_le_r; [apply pow10_pos|].
    rewrite <- pow10_inject by (unfold Decimal.precision; lia).
    now rewrite <- Zle_Qle.
  - replace (e + 1)%Z
      with (Decimal.precision + (e - (Decimal.precision - 1)))%Z by lia.
    rewrite <- pow10_cancel.
    apply Qmult_le_r; [apply pow10_pos|].
    rewrite <- pow10_inject by (unfold Decimal.precision; lia).
    now rewrite <- Zle_Qle.
Qed.

Lemma round_pos_positive (q : Q) : 0 < q -> 0 < Decimal.round_pos q.
Proof.
  intro Hq.
  eapply Qlt_le_trans; [apply (pow10_pos (Decimal.exponent q))|].
  now apply round_pos_bounds.
Qed.



Lemma round_pos_mono (q1 q2 : Q) :
  0 < q1 -> q1 <= q2 -> Decimal.round_pos q1 <= Decimal.round_pos q2.
Proof.
  intros H1 Hle.
  assert (H2 : 0 < q2) by (eapply Qlt_le_trans; eassumption).
  pose proof (exponent_mono q1 q2 H1 Hle) as He.
  destruct (Z.eq_dec (Decimal.exponent q1) (Decimal.exponent q2))
    as [Heq|Hne].
  - unfold Decimal.round_pos, Decimal.mantissa. rewrite Heq.
    apply Qmult_le_r; [apply pow10_pos|].
    rewrite <- Zle_Qle. apply Qfloor_resp_le.
    apply Qplus_le_l. apply Qmult_le_r; [apply pow10_pos | exact Hle].
  - destruct (round_pos_bounds q1 H1) as [_ Hhi1].
    destruct (round_pos_bounds q2 H2) as [Hlo2 _].
    eapply Qle_trans; [exact Hhi1|].
    eapply Qle_trans; [|exact Hlo2].
    apply Qpower_le_compat_l; [lia | discriminate].
Qed.

(** *** Rounding a rational *)

Lemma roundQ_pos (q : Q) : 0 < q -> Decimal.roundQ q = Decimal.round_pos q.
Proof.
  intro H. unfold Decimal.roundQ.
  destruct (Qcompare_spec q 0) as [E|E|E]; [| |reflexivity]; exfalso.
  - rewrite E in H. exact (Qlt_irrefl _ H).
  - exact (Qlt_irrefl _ (Qlt_trans _ _ _ H E)).
Qed.

Lemma roundQ_neg (q : Q) :
  q < 0 -> Decimal.roundQ q = - Decimal.round_pos (- q).
Proof.
  intro H. unfold Decimal.roundQ.
  destruct (Qcompare_spec q 0) as [E|E|E]; [|reflexivity|]; exfalso.
  - rewrite E in H. exact (Qlt_irrefl _ H).
  - exact (Qlt_irrefl _ (Qlt_trans _ _ _ H E)).
Qed.

Lemma roundQ_zero (q : Q) : q == 0 -> Decimal.roundQ q = 0.
Proof.
  intro H. unfold Decimal.roundQ.
  destruct (Qcompare_spec q 0) as [E|E|E]; [reflexivity| |]; exfalso;
    rewrite H in E; exact (Qlt_irrefl _ E).
Qed.

(** Rounding keeps the sign. *)
Lemma roundQ_sign_pos (q : Q) : 0 < q -> 0 < Decimal.roundQ q.
Proof.
  intro H. rewrite roundQ_pos by exact H. now apply round_pos_positive.
Qed.

Lemma roundQ_sign_neg (q : Q) : q < 0 -> Decimal.roundQ q < 0.
Proof.
  intro H. rewrite roundQ_neg by exact H.
  pose proof (round_pos_positive (- q) (Qopp_pos q H)) as Hp.
  apply Qopp_lt_compat in Hp. exact Hp.
Qed.



(** Rounding is monotone. *)
Lemma roundQ_mono (q1 q2 : Q) :
  q1 <= q2 -> Decimal.roundQ q1 <= Decimal.roundQ q2.
Proof.
  intro Hle.
  destruct (Q_dec q1 0) as [[Hlt1|Hgt1]|Hz1].
  - destruct (Q_dec q2 0) as [[Hlt2|Hgt2]|Hz2].
    + rewrite (roundQ_neg q1 Hlt1), (roundQ_neg q2 Hlt2).
      apply Qopp_le_compat. apply round_pos_mono; [now apply Qopp_pos|].
      now apply Qopp_le_compat.
    + apply Qlt_le_weak. eapply Qlt_trans.
      * now apply roundQ_sign_neg.
      * now apply roundQ_sign_pos.
    + rewrite (roundQ_zero q2 Hz2). apply Qlt_le_weak.
      now apply roundQ_sign_neg.
  - assert (Hgt2 : 0 < q2) by (eapply Qlt_le_trans; eassumption).
    rewrite (roundQ_pos q1 Hgt1), (roundQ_pos q2 Hgt2).
    now apply round_pos_mono.
  - rewrite (roundQ_zero q1 Hz1).
    destruct (Q_dec q2 0) as [[Hlt2|Hgt2]|Hz2].
    + exfalso. rewrite Hz1 in Hle. exact (Qlt_not_le _ _ Hlt2 Hle).
    + apply Qlt_le_weak. now apply roundQ_sign_pos.
    + rewrite (roundQ_zero q2 Hz2). apply Qle_refl.
Qed.

End Rounding.

(** ** Facts about [Decimal] *)

Section DecimalFacts.

Local Open Scope Qc_scope.

Lemma Decimal_zero_eq : Decimal.zero = 0.
Proof. reflexivity. Qed.

Lemma isNegative_true (x : Decimal) :
  Decimal.isNegative x = true <-> x < 0.
Proof.
  unfold Decimal.isNegative. rewrite Decimal_zero_eq, Qclt_alt.
  destruct (x ?= 0); split; congruence.
Qed.

Lemma isNegative_false (x : Decimal) :
  Decimal.isNegative x = false <-> 0 <= x.
Proof.
  rewrite <- not_true_iff_false, isNegative_true. split.
  - apply Qcnot_lt_le.
  - apply Qcle_not_lt.
Qed.

Lemma gt_true (x y : Decimal) : Decimal.gt x y = true <-> y < x.
Proof.
  unfold Decimal.gt. rewrite (Qcgt_alt x y).
  destruct (x ?= y); split; congruence.
Qed.

Lemma gt_false (x y : Decimal) : Decimal.gt x y = false <-> x <= y.
Proof.
  rewrite <- not_true_iff_false, gt_true. split.
  - apply Qcnot_lt_le.
  - apply Qcle_not_lt.
Qed.

(** The clamp of the code, [x.isNegative() ? new Decimal(0) : x], is the
    [max(0, x)] of the specification. *)
Lemma clamp_is_max (x : Decimal) :
  (if Decimal.isNegative x then Decimal.zero else x)
  = Spec.clampNonNegative x.
Proof.
  unfold Spec.clampNonNegative, Decimal.max.
  destruct (Decimal.isNegative x) eqn:Hn, (Decimal.gt x Decimal.zero) eqn:Hg;
    try reflexivity.
  - apply isNegative_true in Hn. apply gt_true in Hg.
    rewrite Decimal_zero_eq in Hg.
    exfalso. exact (Qclt_not_le _ _ Hn (Qclt_le_weak _ _ Hg)).
  - apply isNegative_false in Hn. apply gt_false in Hg.
    rewrite Decimal_zero_eq in *. apply Qcle_antisym; assumption.
Qed.

Lemma clamp_nonneg (x : Decimal) :
  Decimal.le Decimal.zero (if Decimal.isNegative x then Decimal.zero else x).
Proof.
  unfold Decimal.le. destruct (Decimal.isNegative x) eqn:Hn.
  - apply Qcle_refl.
  - now apply isNegative_false.
Qed.

Lemma Qcminus_0_r (x : Qc) : x - 0 = x.
Proof. ring. Qed.

(** The value of a rounded decimal. *)
Lemma finalise_Q (x : Decimal) :
  (this (Decimal.finalise x) == Decimal.roundQ x)%Q.
Proof.
  unfold Decimal.finalise. cbn [this Q2Qc]. now rewrite !Qred_correct.
Qed.

Lemma finalise_zero : Decimal.finalise Decimal.zero = Decimal.zero.
Proof. reflexivity. Qed.


(** Rounding keeps the order and the sign. *)
Lemma finalise_mono (x y : Decimal) :
  x <= y -> Decimal.finalise x <= Decimal.finalise y.
Proof.
  unfold Qcle. intro H.
  eapply Qle_trans; [apply Qle_lteq; right; apply finalise_Q|].
  eapply Qle_trans; [apply roundQ_mono; exact H|].
  apply Qle_lteq. right. symmetry. apply finalise_Q.
Qed.

Lemma finalise_nonneg (x : Decimal) : 0 <= x -> 0 <= Decimal.finalise x.
Proof.
  intro H. rewrite <- Decimal_zero_eq, <- finalise_zero.
  apply finalise_mono. now rewrite Decimal_zero_eq.
Qed.

Lemma finalise_nonpos (x : Decimal) : x <= 0 -> Decimal.finalise x <= 0.
Proof.
  intro H. rewrite <- Decimal_zero_eq, <- finalise_zero.
  apply finalise_mono. now rewrite Decimal_zero_eq.
Qed.

Lemma finalise_pos (x : Decimal) : 0 < x -> 0 < Decimal.finalise x.
Proof.
  unfold Qclt. intro H.
  eapply Qlt_le_trans; [apply roundQ_sign_pos; exact H|].
  apply Qle_lteq. right. symmetry. apply finalise_Q.
Qed.


(** [0 * x] is [0]. *)
Lemma mul_zero_l (x : Decimal) : Decimal.mul Decimal.zero x = Decimal.zero.
Proof.
  unfold Decimal.mul. rewrite Decimal_zero_eq, Qcmult_0_l.
  rewrite <- Decimal_zero_eq. apply finalise_zero.
Qed.


(** An operation whose exact result has at most 20 significant digits
    returns it. *)
Lemma add_fits (x y : Decimal) :
  Decimal.fits (Qcplus x y) -> Decimal.add x y = Qcplus x y.
Proof. intro H. exact H. Qed.

Lemma sub_fits (x y : Decimal) :
  Decimal.fits (Qcminus x y) -> Decimal.sub x y = Qcminus x y.
Proof. intro H. exact H. Qed.

Lemma mul_fits (x y : Decimal) :
  Decimal.fits (Qcmult x y) -> Decimal.mul x y = Qcmult x y.
Proof. intro H. exact H. Qed.

End DecimalFacts.

(** ** The embedding on the tests of src/index.test.ts that pass *)

Example test_user_without_liquidity :
  calculateUserPoints [Fixtures.user1] Fixtures.defaultConfig 1000 1500 false
  = [ {| UserPoints.account := "user1";
         UserPoints.lp_usd_hours := Decimal.of_Z 0;
         UserPoints.volume_usd := Decimal.of_Z 1000;
         UserPoints.realized_pnl_net_usd := Decimal.of_Z 50 |} ].
Proof. reflexivity. Qed.

Example test_trade_volume_with_start_snapshot :
  map (fun p => (UserPoints.volume_usd p, UserPoints.realized_pnl_net_usd p))
      (calculateUserPoints
         [Fixtures.baseline_lead] Fixtures.defaultConfig 1000 1500 false)
  = [ (Decimal.of_Z 800, Decimal.of_Z 40) ].
Proof. reflexivity. Qed.

Example test_overtime_scenario :
  map (fun p => (UserPoints.volume_usd p, UserPoints.realized_pnl_net_usd p))
      (calculateUserPoints
         [Fixtures.overtime_lead] Fixtures.defaultConfig 1000 1500 true)
  = [ (Decimal.of_Z 1000, Decimal.of_Z 50) ].
Proof. reflexivity. Qed.

Example test_multiple_users :
  map (fun p => (UserPoints.account p, UserPoints.volume_usd p))
      (calculateUserPoints
         [Fixtures.user1; Fixtures.user2] Fixtures.defaultConfig
         1000 1500 false)
  = [ ("user1"%string, Decimal.of_Z 1000);
      ("user2"%string, Decimal.of_Z 2000) ].
Proof. reflexivity. Qed.

(** ** The liquidity integrator: properties *)

(** C1.  On scenario A and the window [1200, 1400] the integrator returns
    [100 - (50 + 200 * 100) = -19950]: the ended snapshot is not older than
    the end of the window, so nothing is added to its [basePoints], and the
    start snapshot evaluated at 1200 is subtracted.  It does not return the
    30000 that the regression test expects. *)
Theorem scenarioA_integral :
  calculateLiquidityPointBase Fixtures.scenarioA 1200 1400
  = Decimal.of_Z (-19950)
  /\ calculateLiquidityPointBase Fixtures.scenarioA 1200 1400
     <> Decimal.of_Z 30000.
Proof.
  split.
  - reflexivity.
  - intro H. apply (f_equal this) in H. vm_compute in H. discriminate H.
Qed.

(** Where no operation rounds, the value of a snapshot at [t] is the exact
    one. *)
Lemma integralAt_exact (s : PerpLiquiditySnap) (t : Z) :
  Spec.integralAt_fits s t -> Spec.integralAt s t = Spec.exactIntegralAt s t.
Proof.
  unfold Spec.integralAt_fits, Spec.integralAt, Spec.exactIntegralAt.
  destruct (Z.ltb_spec (PerpLiquiditySnap.timestamp s) t) as [Hlt|_];
    [|reflexivity].
  intro H. destruct (H Hlt) as [Hmul Hadd].
  rewrite (mul_fits _ _ Hmul). apply add_fits, Hadd.
Qed.

(** What the integrator computes when the ended snapshot is not older than
    the start of the window. *)
Lemma integrator_unfold
    (liq : PerpLiquidity) (windowStart windowEnd : Z)
    (e : PerpLiquiditySnap) :
  hd_error (PerpLiquidity.ended liq) = Some e ->
  PerpLiquiditySnap.timestamp e >= windowStart ->
  calculateLiquidityPointBase liq windowStart windowEnd
  = match hd_error (PerpLiquidity.start liq) with
    | Some s =>
      Decimal.sub (Spec.E e windowEnd) (Spec.integralAt s windowStart)
    | None => Spec.E e windowEnd
    end.
Proof.
  intros He Hge. unfold calculateLiquidityPointBase.
  destruct (PerpLiquidity.ended liq) as [|e' rest]; [discriminate He|].
  injection He as ->.
  destruct (Z.ltb_spec (PerpLiquiditySnap.timestamp e) windowStart)
    as [Hlt|_]; [lia|].
  unfold Spec.E, Spec.integralAt.
  destruct (hd_error (PerpLiquidity.start liq)) as [s|]; reflexivity.
Qed.

(** The integrator is the exact [E - S] where none of its operations
    rounds. *)
Lemma integrator_exact
    (liq : PerpLiquidity) (windowStart windowEnd : Z)
    (e : PerpLiquiditySnap) :
  hd_error (PerpLiquidity.ended liq) = Some e ->
  PerpLiquiditySnap.timestamp e >= windowStart ->
  Spec.integral_fits
    e (hd_error (PerpLiquidity.start liq)) windowStart windowEnd ->
  calculateLiquidityPointBase liq windowStart windowEnd
  = Qcminus (Spec.exactE e windowEnd)
            (Spec.exactS (hd_error (PerpLiquidity.start liq)) windowStart).
Proof.
  intros He Hge [HE HS].
  rewrite (integrator_unfold liq windowStart windowEnd e He Hge).
  unfold Spec.E, Spec.exactE, Spec.exactS in *.
  rewrite (integralAt_exact e windowEnd HE).
  destruct (hd_error (PerpLiquidity.start liq)) as [s|].
  - destruct HS as [HS Hsub].
    rewrite (integralAt_exact s windowStart HS). apply sub_fits, Hsub.
  - rewrite Decimal_zero_eq. symmetry. apply Qcminus_0_r.
Qed.

(** C3, amended.  When the ended snapshot exists and is not older than the
    start of the window, the integrator returns [E - S] in the arithmetic
    of decimal.js, where the product, the sum and the difference are each
    rounded to 20 significant digits: with a start snapshot the rounded
    difference of [E] and the start snapshot evaluated at the start of the
    window, without one [E] itself, not rounded again.  Where none of
    these operations rounds, this is the exact [E - S] of the
    specification. *)
Theorem integrator_closed_form_rounded
    (liq : PerpLiquidity) (windowStart windowEnd : Z)
    (e : PerpLiquiditySnap) :
  hd_error (PerpLiquidity.ended liq) = Some e ->
  PerpLiquiditySnap.timestamp e >= windowStart ->
  calculateLiquidityPointBase liq windowStart windowEnd
  = match hd_error (PerpLiquidity.start liq) with
    | Some s =>
      Decimal.sub (Spec.E e windowEnd) (Spec.integralAt s windowStart)
    | None => Spec.E e windowEnd
    end
  /\ (Spec.integral_fits
        e (hd_error (PerpLiquidity.start liq)) windowStart windowEnd ->
      calculateLiquidityPointBase liq windowStart windowEnd
      = Qcminus
          (Spec.exactE e windowEnd)
          (Spec.exactS (hd_error (PerpLiquidity.start liq)) windowStart)).
Proof.
  intros He Hge. split.
  - now apply integrator_unfold.
  - now apply integrator_exact.
Qed.

Lemma integrator_closed_form_rounded_witness :
  calculateLiquidityPointBase Fixtures.scenarioA 1200 1800
  = Decimal.sub (Spec.E Fixtures.scenarioA_ended 1800)
                (Spec.integralAt Fixtures.scenarioA_start 1200)
  /\ calculateLiquidityPointBase Fixtures.scenarioA 1200 1800
     = Qcminus (Spec.exactE Fixtures.scenarioA_ended 1800)
               (Spec.exactS (Some Fixtures.scenarioA_start) 1200).
Proof.
  destruct (integrator_closed_form_rounded
              Fixtures.scenarioA 1200 1800 Fixtures.scenarioA_ended eq_refl)
    as [Hrounded Hexact].
  - simpl. lia.
  - split; [exact Hrounded|]. apply Hexact.
    repeat split; reflexivity.
Defined.

(** C3 as the specification has it, with exact arithmetic, fails on a
    liquidity of 21 digits held for 3 s after the ended snapshot: the exact
    [E - S] is [3 * 123456789012345678901], of 21 digits, and the integrator
    returns it rounded to 20 digits. *)
Lemma integrator_closed_form_counterexample :
  hd_error (PerpLiquidity.ended MoreFixtures.long_liquidity)
  = Some MoreFixtures.long_ended
  /\ PerpLiquiditySnap.timestamp MoreFixtures.long_ended >= 1000
  /\ calculateLiquidityPointBase MoreFixtures.long_liquidity 1000 1003
     = Decimal.of_Z 370370367037037036700
  /\ Qcminus
       (Spec.exactE MoreFixtures.long_ended 1003)
       (Spec.exactS
          (hd_error (PerpLiquidity.start MoreFixtures.long_liquidity)) 1000)
     = Decimal.of_Z 370370367037037036703
  /\ Decimal.of_Z 370370367037037036700
     <> Decimal.of_Z 370370367037037036703.
Proof.
  split; [reflexivity|]. split; [simpl; lia|].
  split; [reflexivity|]. split; [reflexivity|].
  intro H. apply (f_equal this) in H. vm_compute in H. discriminate H.
Qed.

(** C7.  The integrator returns 0 when the ended snapshot is older than the
    start of the window, and when there is no ended snapshot. *)
Theorem integrator_window_clipping
    (liq : PerpLiquidity) (windowStart windowEnd : Z) :
  (forall e, hd_error (PerpLiquidity.ended liq) = Some e ->
             PerpLiquiditySnap.timestamp e < windowStart ->
             calculateLiquidityPointBase liq windowStart windowEnd
             = Decimal.zero)
  /\ (PerpLiquidity.ended liq = [] ->
      calculateLiquidityPointBase liq windowStart windowEnd = Decimal.zero).
Proof.
  unfold calculateLiquidityPointBase. split.
  - intros e He Hlt.
    destruct (PerpLiquidity.ended liq) as [|e' rest]; [reflexivity|].
    injection He as ->.
    apply Z.ltb_lt in Hlt. now rewrite Hlt.
  - intros ->. reflexivity.
Qed.

Lemma integrator_window_clipping_witness :
  calculateLiquidityPointBase Fixtures.stale_liquidity 1000 2000
  = Decimal.zero
  /\ calculateLiquidityPointBase Fixtures.empty_liquidity 1000 2000
     = Decimal.zero.
Proof.
  split.
  - apply (proj1 (integrator_window_clipping
                    Fixtures.stale_liquidity 1000 2000)
                 Fixtures.stale_ended).
    + reflexivity.
    + simpl. lia.
  - apply (proj2 (integrator_window_clipping
                    Fixtures.empty_liquidity 1000 2000)).
    reflexivity.
Defined.

(** ** The point aggregator: properties *)

Section Aggregator.

Variable config : CalculationConfig.
Variables windowStart windowEnd : Z.
Variable overtime : bool.

(** The result at position [i] is computed from the record at position
    [i], and from nothing else of the list. *)
Lemma result_at (leaderboards : list PerpLeaderboard) (i : nat)
    (r : PerpLeaderboard) :
  nth_error leaderboards i = Some r ->
  nth_error
    (calculateUserPoints leaderboards config windowStart windowEnd overtime)
    i
  = Some (userPoints config windowStart windowEnd overtime r).
Proof.
  intro Hr. unfold calculateUserPoints.
  rewrite nth_error_map, Hr. reflexivity.
Qed.

Lemma userPoints_volume (r : PerpLeaderboard) :
  UserPoints.volume_usd (userPoints config windowStart windowEnd overtime r)
  = Spec.tradePointsFrom
      config (Spec.effectiveEndVolume overtime windowEnd r) r.
Proof.
  unfold userPoints. cbn [UserPoints.volume_usd].
  rewrite clamp_is_max.
  unfold Spec.tradePointsFrom, Spec.effectiveEndVolume.
  rewrite Z.gtb_ltb.
  destruct (PerpLeaderboard.ended r), (PerpLeaderboard.start r),
    overtime, (windowEnd <? PerpLeaderboard.latestUpdateTimestamp r);
    reflexivity.
Qed.

Lemma userPoints_pnl (r : PerpLeaderboard) :
  UserPoints.realized_pnl_net_usd
    (userPoints config windowStart windowEnd overtime r)
  = Spec.tradeProfitPointsFrom
      config (Spec.effectiveEndProfit overtime windowEnd r) r.
Proof.
  unfold userPoints. cbn [UserPoints.realized_pnl_net_usd].
  rewrite clamp_is_max.
  unfold Spec.tradeProfitPointsFrom, Spec.netProfitInWindow,
    Spec.effectiveEndProfit.
  rewrite Z.gtb_ltb.
  destruct (PerpLeaderboard.ended r), (PerpLeaderboard.start r),
    overtime, (windowEnd <? PerpLeaderboard.latestUpdateTimestamp r);
    cbn [hd_error andb Nat.ltb Nat.leb List.length];
    match goal with
    | |- context [Decimal.gt ?x Decimal.zero] =>
      destruct (Decimal.gt x Decimal.zero); reflexivity
    end.
Qed.

Lemma userPoints_nonNegative (r : PerpLeaderboard) :
  Spec.nonNegative (userPoints config windowStart windowEnd overtime r).
Proof.
  unfold Spec.nonNegative, userPoints.
  cbn [UserPoints.lp_usd_hours UserPoints.volume_usd
       UserPoints.realized_pnl_net_usd].
  repeat split.
  - destruct (PerpLeaderboard.liquidity r).
    + apply clamp_nonneg.
    + apply Qcle_refl.
  - apply clamp_nonneg.
  - apply clamp_nonneg.
Qed.

End Aggregator.

Lemma effectiveEnd_overtime
    (windowEnd : Z) (r : PerpLeaderboard) (e : PerpLeaderboardSnap) :
  PerpLeaderboard.latestUpdateTimestamp r > windowEnd ->
  hd_error (PerpLeaderboard.ended r) = Some e ->
  Spec.effectiveEndVolume true windowEnd r
  = PerpLeaderboardSnap.tradingVolume e
  /\ Spec.effectiveEndProfit true windowEnd r
     = PerpLeaderboardSnap.netProfit e.
Proof.
  intros Hlate He. unfold Spec.effectiveEndVolume, Spec.effectiveEndProfit.
  rewrite He. cbn [andb].
  replace (windowEnd <? PerpLeaderboard.latestUpdateTimestamp r) with true
    by (symmetry; apply Z.ltb_lt; lia).
  split; reflexivity.
Qed.

Lemma effectiveEnd_regular
    (overtime : bool) (windowEnd : Z) (r : PerpLeaderboard) :
  overtime = false
  \/ PerpLeaderboard.latestUpdateTimestamp r <= windowEnd
  \/ PerpLeaderboard.ended r = [] ->
  Spec.effectiveEndVolume overtime windowEnd r
  = PerpLeaderboard.tradingVolume r
  /\ Spec.effectiveEndProfit overtime windowEnd r
     = PerpLeaderboard.netProfit r.
Proof.
  unfold Spec.effectiveEndVolume, Spec.effectiveEndProfit.
  intros [-> | [Hle | ->]].
  - destruct (hd_error (PerpLeaderboard.ended r)); split; reflexivity.
  - replace (windowEnd <? PerpLeaderboard.latestUpdateTimestamp r)
      with false by (symmetry; apply Z.ltb_ge; exact Hle).
    rewrite andb_false_r.
    destruct (hd_error (PerpLeaderboard.ended r)); split; reflexivity.
  - split; reflexivity.
Qed.

(** C2.  No limit is enforced.  On the input of the test 'should apply
    liquidity limit correctly', with a liquidity limit of 1000, the
    liquidity points are [(1000 + 100 * 2000 - 500) * 2 = 401000]; on the
    input of 'should apply trade limits correctly', with a trade limit of
    1500 and a trade-profit limit of 500, the trade points are 2000 and the
    trade-profit points 1000. *)
Theorem limits_not_enforced :
  (Spec.liquidityLimit Fixtures.liquidityLimit_config
   = Some (Decimal.of_Z 1000)
   /\ map UserPoints.lp_usd_hours
          (calculateUserPoints
             [Fixtures.limit_lead]
             (Spec.rates Fixtures.liquidityLimit_config) 1000 1500 false)
      = [Decimal.of_Z 401000]
   /\ Decimal.lt (Decimal.of_Z 1000) (Decimal.of_Z 401000))
  /\ (Spec.tradeLimit Fixtures.tradeLimit_config = Some (Decimal.of_Z 1500)
      /\ map UserPoints.volume_usd
             (calculateUserPoints
                [Fixtures.big_trader]
                (Spec.rates Fixtures.tradeLimit_config) 1000 1500 false)
         = [Decimal.of_Z 2000]
      /\ Decimal.lt (Decimal.of_Z 1500) (Decimal.of_Z 2000))
  /\ (Spec.tradeProfitLimit Fixtures.tradeLimit_config
      = Some (Decimal.of_Z 500)
      /\ map UserPoints.realized_pnl_net_usd
             (calculateUserPoints
                [Fixtures.big_trader]
                (Spec.rates Fixtures.tradeLimit_config) 1000 1500 false)
         = [Decimal.of_Z 1000]
      /\ Decimal.lt (Decimal.of_Z 500) (Decimal.of_Z 1000)).
Proof.
  repeat split; reflexivity.
Qed.

(** C4.  With [overtime], a last update later than the end of the window
    and an ended snapshot, the trade points and the trade-profit points are
    computed from the ended snapshot's [tradingVolume] and [netProfit]; in
    every other case from the record's own [tradingVolume] and
    [netProfit]. *)
Theorem overtime_substitution
    (leaderboards : list PerpLeaderboard) (config : CalculationConfig)
    (windowStart windowEnd : Z) (overtime : bool)
    (i : nat) (r : PerpLeaderboard) :
  nth_error leaderboards i = Some r ->
  exists p,
    nth_error
      (calculateUserPoints leaderboards config windowStart windowEnd overtime)
      i = Some p
    /\ (forall e,
          overtime = true ->
          PerpLeaderboard.latestUpdateTimestamp r > windowEnd ->
          hd_error (PerpLeaderboard.ended r) = Some e ->
          UserPoints.volume_usd p
          = Spec.tradePointsFrom
              config (PerpLeaderboardSnap.tradingVolume e) r
          /\ UserPoints.realized_pnl_net_usd p
             = Spec.tradeProfitPointsFrom
                 config (PerpLeaderboardSnap.netProfit e) r)
    /\ (overtime = false
         \/ PerpLeaderboard.latestUpdateTimestamp r <= windowEnd
         \/ PerpLeaderboard.ended r = [] ->
        UserPoints.volume_usd p
        = Spec.tradePointsFrom config (PerpLeaderboard.tradingVolume r) r
        /\ UserPoints.realized_pnl_net_usd p
           = Spec.tradeProfitPointsFrom
               config (PerpLeaderboard.netProfit r) r).
Proof.
  intro Hr. eexists. split; [apply result_at; exact Hr|].
  rewrite userPoints_volume, userPoints_pnl. split.
  - intros e -> Hlate He.
    destruct (effectiveEnd_overtime windowEnd r e Hlate He) as [-> ->].
    split; reflexivity.
  - intro Hreg.
    destruct (effectiveEnd_regular overtime windowEnd r Hreg) as [-> ->].
    split; reflexivity.
Qed.

Lemma overtime_substitution_witness :
  (exists p,
     nth_error
       (calculateUserPoints
          [Fixtures.overtime_lead] Fixtures.defaultConfig 1000 1500 true)
       0 = Some p
     /\ UserPoints.volume_usd p = Decimal.of_Z 1000
     /\ UserPoints.realized_pnl_net_usd p = Decimal.of_Z 50)
  /\ (exists p,
        nth_error
          (calculateUserPoints
             [Fixtures.overtime_lead] Fixtures.defaultConfig 1000 1500 false)
          0 = Some p
        /\ UserPoints.volume_usd p = Decimal.of_Z 1300
        /\ UserPoints.realized_pnl_net_usd p = Decimal.of_Z 70).
Proof.
  split.
  - destruct (overtime_substitution
                [Fixtures.overtime_lead] Fixtures.defaultConfig 1000 1500 true
                0%nat Fixtures.overtime_lead eq_refl)
      as (p & Hp & Hsub & _).
    exists p. split; [exact Hp|].
    destruct (Hsub Fixtures.overtime_ended eq_refl) as [Hv Hn].
    + simpl. lia.
    + reflexivity.
    + rewrite Hv, Hn. split; reflexivity.
  - destruct (overtime_substitution
                [Fixtures.overtime_lead] Fixtures.defaultConfig 1000 1500 false
                0%nat Fixtures.overtime_lead eq_refl)
      as (p & Hp & _ & Htop).
    exists p. split; [exact Hp|].
    destruct (Htop (or_introl eq_refl)) as [Hv Hn].
    rewrite Hv, Hn. split; reflexivity.
Defined.




(** C6.  Every result has non-negative liquidity points, trade points and
    trade-profit points.  This holds for every list of records, every
    configuration and every window, so in particular for the valid ones
    (non-negative rates, [windowStart <= windowEnd]). *)
Theorem points_non_negative
    (leaderboards : list PerpLeaderboard) (config : CalculationConfig)
    (windowStart windowEnd : Z) (overtime : bool) :
  Forall Spec.nonNegative
    (calculateUserPoints leaderboards config windowStart windowEnd overtime).
Proof.
  unfold calculateUserPoints.
  induction leaderboards as [|r rest IH]; cbn [map].
  - constructor.
  - constructor; [apply userPoints_nonNegative | exact IH].
Qed.

(** C8.  When the net profit of the window (after the overtime substitution
    and the subtraction of the start snapshot) is zero or negative, the
    trade-profit points are 0 whatever the rate; when it is strictly
    positive, they are that net profit multiplied by the rate (clamped). *)
Theorem profit_points_only_from_gains
    (leaderboards : list PerpLeaderboard) (config : CalculationConfig)
    (windowStart windowEnd : Z) (overtime : bool)
    (i : nat) (r : PerpLeaderboard) (np : Decimal) :
  nth_error leaderboards i = Some r ->
  Spec.netProfitInWindow (Spec.effectiveEndProfit overtime windowEnd r) r
  = np ->
  exists p,
    nth_error
      (calculateUserPoints leaderboards config windowStart windowEnd overtime)
      i = Some p
    /\ (Decimal.le np Decimal.zero ->
        UserPoints.realized_pnl_net_usd p = Decimal.zero)
    /\ (Decimal.lt Decimal.zero np ->
        UserPoints.realized_pnl_net_usd p
        = Spec.clampNonNegative
            (Decimal.mul np (CalculationConfig.tradeProfitRate config))).
Proof.
  intros Hr <-. eexists. split; [apply result_at; exact Hr|].
  rewrite userPoints_pnl. unfold Spec.tradeProfitPointsFrom. cbn zeta.
  split; intro Hnp.
  - apply gt_false in Hnp. now rewrite Hnp.
  - apply gt_true in Hnp. now rewrite Hnp.
Qed.

Lemma profit_points_only_from_gains_witness :
  (exists p,
     nth_error
       (calculateUserPoints
          [Fixtures.loss_lead] (Fixtures.createConfig 1 7 1) 1000 1500 false)
       0 = Some p
     /\ UserPoints.realized_pnl_net_usd p = Decimal.zero)
  /\ (exists p,
        nth_error
          (calculateUserPoints
             [Fixtures.user1] (Fixtures.createConfig 1 7 1) 1000 1500 false)
          0 = Some p
        /\ UserPoints.realized_pnl_net_usd p = Decimal.of_Z 350).
Proof.
  split.
  - destruct (profit_points_only_from_gains
                [Fixtures.loss_lead] (Fixtures.createConfig 1 7 1)
                1000 1500 false 0%nat Fixtures.loss_lead (Decimal.of_Z (-50))
                eq_refl eq_refl)
      as (p & Hp & Hloss & _).
    exists p. split; [exact Hp|].
    apply Hloss. vm_compute. discriminate.
  - destruct (profit_points_only_from_gains
                [Fixtures.user1] (Fixtures.createConfig 1 7 1)
                1000 1500 false 0%nat Fixtures.user1 (Decimal.of_Z 50)
                eq_refl eq_refl)
      as (p & Hp & _ & Hgain).
    exists p. split; [exact Hp|].
    rewrite Hgain; reflexivity.
Defined.

(** C9.  The output has the length of the input, the accounts of the output
    are the accounts of the input in the same order, and the result at each
    position is computed from the record at that position alone: records of
    the same account are neither merged nor dropped. *)
Theorem order_preservation
    (leaderboards : list PerpLeaderboard) (config : CalculationConfig)
    (windowStart windowEnd : Z) (overtime : bool) :
  let results :=
    calculateUserPoints leaderboards config windowStart windowEnd overtime in
  List.length results = List.length leaderboards
  /\ map UserPoints.account results = map PerpLeaderboard.account leaderboards
  /\ forall i,
       nth_error results i
       = option_map (userPoints config windowStart windowEnd overtime)
                    (nth_error leaderboards i).
Proof.
  cbn zeta. unfold calculateUserPoints. split; [|split].
  - apply length_map.
  - rewrite map_map. apply map_ext. intro r. reflexivity.
  - intro i. apply nth_error_map.
Qed.

(** ** Fields that no point reads *)

Lemma integrator_reads_snapshots_only (a b : PerpLiquidity)
    (startTime endTime : Z) :
  PerpLiquidity.start a = PerpLiquidity.start b ->
  PerpLiquidity.ended a = PerpLiquidity.ended b ->
  calculateLiquidityPointBase a startTime endTime
  = calculateLiquidityPointBase b startTime endTime.
Proof.
  intros Hs He. unfold calculateLiquidityPointBase. now rewrite Hs, He.
Qed.

Lemma userPoints_ignores
    (config : CalculationConfig) (startTime stopTime : Z) (overtime : bool)
    (r1 r2 : PerpLeaderboard) :
  Spec.differ_only_in_ignored r1 r2 ->
  userPoints config startTime stopTime overtime r1
  = userPoints config startTime stopTime overtime r2.
Proof.
  intros (Hacc & Hvol & Hnp & Hts & Hstart & Hended & Hliq).
  unfold userPoints. rewrite Hacc, Hvol, Hnp, Hts.
  assert (Hlp :
    match PerpLeaderboard.liquidity r1 with
    | Some l => calculateLiquidityPointBase l startTime stopTime
    | None => Decimal.zero
    end
    = match PerpLeaderboard.liquidity r2 with
      | Some l => calculateLiquidityPointBase l startTime stopTime
      | None => Decimal.zero
      end).
  { destruct (PerpLeaderboard.liquidity r1) as [a|],
             (PerpLeaderboard.liquidity r2) as [b|];
      cbn in Hliq; try contradiction; [|reflexivity].
    destruct Hliq as (_ & Hs & He).
    now apply integrator_reads_snapshots_only. }
  destruct (PerpLeaderboard.liquidity r1) as [a|],
           (PerpLeaderboard.liquidity r2) as [b|];
    cbn in Hliq; try contradiction; try rewrite Hlp;
    destruct Hstart as [|s1 s2 ? ? [Hsv Hsn] _],
             Hended as [|e1 e2 ? ? [Hev Hen] _];
    cbn [List.length]; try rewrite Hsv; try rewrite Hsn;
    try rewrite Hev; try rewrite Hen; reflexivity.
Qed.

(** C10.  Two lists of records that differ only in [swap],
    [conditionTradeVolume], the top-level [lp] of the liquidity and the
    [swap] and [conditionTradeVolume] of the trading snapshots have the same
    results. *)
Theorem ignored_fields_do_not_matter
    (leaderboards1 leaderboards2 : list PerpLeaderboard)
    (config : CalculationConfig) (startTime stopTime : Z) (overtime : bool) :
  Forall2 Spec.differ_only_in_ignored leaderboards1 leaderboards2 ->
  calculateUserPoints leaderboards1 config startTime stopTime overtime
  = calculateUserPoints leaderboards2 config startTime stopTime overtime.
Proof.
  unfold calculateUserPoints.
  induction 1 as [|r1 r2 rest1 rest2 Hr _ IH]; cbn [map].
  - reflexivity.
  - f_equal; [now apply userPoints_ignores | exact IH].
Qed.

Lemma ignored_fields_do_not_matter_witness :
  calculateUserPoints
    [Fixtures.overtime_lead] Fixtures.defaultConfig 1000 1500 true
  = calculateUserPoints
      [Fixtures.overtime_lead'] Fixtures.defaultConfig 1000 1500 true.
Proof.
  apply (ignored_fields_do_not_matter
           [Fixtures.overtime_lead] [Fixtures.overtime_lead']).
  repeat constructor.
Defined.

(** ** More on the liquidity integrator *)

(** The algebra of the closed form, over the rationals. *)
Lemma flat_at_snapshot (bp lp t : Qc) : (bp = bp + (t - t) * lp)%Qc.
Proof. ring. Qed.

Lemma time_weighted (bs ls le te ts ws we : Qc) :
  (bs + (te - ts) * ls + (we - te) * le - (bs + (ws - ts) * ls)
   = (te - ws) * ls + (we - te) * le)%Qc.
Proof. ring. Qed.

Lemma of_Z_sub (a b : Z) :
  Decimal.of_Z (a - b) = Qcminus (Decimal.of_Z a) (Decimal.of_Z b).
Proof.
  unfold Decimal.of_Z. apply Qc_is_canon.
  unfold Qcminus, Qcplus, Qcopp, Q2Qc; cbn [this].
  rewrite !Qred_correct.
  unfold Z.sub. rewrite inject_Z_plus, inject_Z_opp. reflexivity.
Qed.

Lemma of_Z_le (a b : Z) :
  a <= b -> Decimal.le (Decimal.of_Z a) (Decimal.of_Z b).
Proof.
  intro H. unfold Decimal.le, Decimal.of_Z, Qcle, Q2Qc; cbn [this].
  rewrite !Qred_correct. rewrite <- Zle_Qle. exact H.
Qed.

(** The exact value of a snapshot at a time not before it. *)
Lemma exactIntegralAt_flat (s : PerpLiquiditySnap) (t : Z) :
  PerpLiquiditySnap.timestamp s <= t ->
  Spec.exactIntegralAt s t
  = Qcplus
      (PerpLiquiditySnap.basePoints s)
      (Qcmult
         (Qcminus (Decimal.of_Z t)
                  (Decimal.of_Z (PerpLiquiditySnap.timestamp s)))
         (PerpLiquiditySnap.lp s)).
Proof.
  intro Hle. unfold Spec.exactIntegralAt.
  destruct (Z.ltb_spec (PerpLiquiditySnap.timestamp s) t) as [_|Hge].
  - now rewrite of_Z_sub.
  - replace t with (PerpLiquiditySnap.timestamp s) by lia.
    apply flat_at_snapshot.
Qed.

(** With a non-negative liquidity, the value of a snapshot does not
    decrease with the time at which it is taken, as long as this time is
    after the snapshot or [basePoints] is not changed by rounding. *)
Lemma integralAt_mono (s : PerpLiquiditySnap) (t1 t2 : Z) :
  Decimal.le Decimal.zero (PerpLiquiditySnap.lp s) ->
  t1 <= t2 ->
  PerpLiquiditySnap.timestamp s < t1
  \/ Decimal.fits (PerpLiquiditySnap.basePoints s) ->
  Decimal.le (Spec.integralAt s t1) (Spec.integralAt s t2).
Proof.
  intros Hlp Ht Hfits.
  assert (Hprod : forall a b : Z,
    a <= b ->
    Decimal.le (Decimal.mul (Decimal.of_Z a) (PerpLiquiditySnap.lp s))
               (Decimal.mul (Decimal.of_Z b) (PerpLiquiditySnap.lp s))).
  { intros a b Hab. apply finalise_mono.
    apply Qcmult_le_compat_r; [|exact Hlp]. now apply of_Z_le. }
  unfold Spec.integralAt, Decimal.le.
  destruct (Z.ltb_spec (PerpLiquiditySnap.timestamp s) t1) as [H1|H1],
           (Z.ltb_spec (PerpLiquiditySnap.timestamp s) t2) as [H2|H2];
    try lia.
  - apply finalise_mono.
    apply Qcplus_le_compat; [apply Qcle_refl|]. apply Hprod. lia.
  - destruct Hfits as [Hlt|Hfits]; [lia|].
    unfold Decimal.fits in Hfits.
    apply Qcle_trans
      with (Decimal.finalise (PerpLiquiditySnap.basePoints s));
      [rewrite Hfits; apply Qcle_refl|].
    apply finalise_mono.
    rewrite <- (Qcplus_0_r (PerpLiquiditySnap.basePoints s)) at 1.
    apply Qcplus_le_compat; [apply Qcle_refl|].
    apply finalise_nonneg.
    rewrite <- (Qcmult_0_l (PerpLiquiditySnap.lp s)).
    apply Qcmult_le_compat_r; [|exact Hlp].
    apply (of_Z_le 0). lia.
  - apply Qcle_refl.
Qed.


(** The integrator does not clip the ended snapshot to the end of the
    window: while the end of the window is not later than the ended
    snapshot, the result does not depend on it. *)
Theorem integrator_ignores_early_window_end
    (liq : PerpLiquidity) (windowStart windowEnd1 windowEnd2 : Z)
    (e : PerpLiquiditySnap) :
  hd_error (PerpLiquidity.ended liq) = Some e ->
  windowEnd1 <= PerpLiquiditySnap.timestamp e ->
  windowEnd2 <= PerpLiquiditySnap.timestamp e ->
  calculateLiquidityPointBase liq windowStart windowEnd1
  = calculateLiquidityPointBase liq windowStart windowEnd2.
Proof.
  intros He H1 H2. unfold calculateLiquidityPointBase.
  destruct (PerpLiquidity.ended liq) as [|e' rest]; [reflexivity|].
  injection He as ->.
  destruct (Z.ltb_spec (PerpLiquiditySnap.timestamp e) windowEnd1);
    [lia|].
  destruct (Z.ltb_spec (PerpLiquiditySnap.timestamp e) windowEnd2);
    [lia|].
  reflexivity.
Qed.

Lemma integrator_ignores_early_window_end_witness :
  calculateLiquidityPointBase Fixtures.scenarioA 1200 1400
  = calculateLiquidityPointBase Fixtures.scenarioA 1200 1500.
Proof.
  apply (integrator_ignores_early_window_end
           Fixtures.scenarioA 1200 1400 1500 Fixtures.scenarioA_ended).
  - reflexivity.
  - simpl. lia.
  - simpl. lia.
Defined.

(** On consistent snapshots the integrator is the time-weighted liquidity
    of the window, as long as none of its operations rounds: when the start
    snapshot is not later than the start of the window, the ended snapshot
    lies in the window, the running integral of the ended snapshot
    continues that of the start snapshot at the start snapshot's liquidity,
    and every product, sum and difference that the integrator computes has
    at most 20 significant digits, the result is
    [(ended.timestamp - windowStart) * start.lp
     + (windowEnd - ended.timestamp) * ended.lp], exactly. *)
Theorem integrator_on_consistent_snapshots
    (liq : PerpLiquidity) (windowStart windowEnd : Z)
    (s e : PerpLiquiditySnap) :
  hd_error (PerpLiquidity.start liq) = Some s ->
  hd_error (PerpLiquidity.ended liq) = Some e ->
  PerpLiquiditySnap.timestamp s <= windowStart ->
  windowStart <= PerpLiquiditySnap.timestamp e ->
  PerpLiquiditySnap.timestamp e <= windowEnd ->
  PerpLiquiditySnap.basePoints e
  = Qcplus
      (PerpLiquiditySnap.basePoints s)
      (Qcmult
         (Decimal.of_Z
            (PerpLiquiditySnap.timestamp e - PerpLiquiditySnap.timestamp s))
         (PerpLiquiditySnap.lp s)) ->
  Spec.integral_fits e (Some s) windowStart windowEnd ->
  calculateLiquidityPointBase liq windowStart windowEnd
  = Qcplus
      (Qcmult
         (Decimal.of_Z (PerpLiquiditySnap.timestamp e - windowStart))
         (PerpLiquiditySnap.lp s))
      (Qcmult
         (Decimal.of_Z (windowEnd - PerpLiquiditySnap.timestamp e))
         (PerpLiquiditySnap.lp e)).
Proof.
  intros Hs He Hsw Hwe Hew Hbp Hfits.
  rewrite (integrator_exact liq windowStart windowEnd e He)
    by (rewrite ?Hs; try exact Hfits; lia).
  rewrite Hs. unfold Spec.exactE, Spec.exactS.
  rewrite (exactIntegralAt_flat e windowEnd Hew),
          (exactIntegralAt_flat s windowStart Hsw), Hbp.
  rewrite !of_Z_sub. apply time_weighted.
Qed.

(** With a non-negative liquidity in the ended snapshot, a later end of the
    window never gives a smaller integral, provided that the earlier end is
    after the ended snapshot or that the [basePoints] of the ended snapshot
    have at most 20 significant digits.  (Otherwise the later end can give
    less: at the earlier end the [basePoints] are returned as they are, at
    the later one rounded by the addition.) *)
Theorem integrator_monotone_in_window_end
    (liq : PerpLiquidity) (windowStart windowEnd1 windowEnd2 : Z)
    (e : PerpLiquiditySnap) :
  hd_error (PerpLiquidity.ended liq) = Some e ->
  Decimal.le Decimal.zero (PerpLiquiditySnap.lp e) ->
  windowEnd1 <= windowEnd2 ->
  PerpLiquiditySnap.timestamp e < windowEnd1
  \/ Decimal.fits (PerpLiquiditySnap.basePoints e) ->
  Decimal.le (calculateLiquidityPointBase liq windowStart windowEnd1)
             (calculateLiquidityPointBase liq windowStart windowEnd2).
Proof.
  intros He Hlp Hle Hfits. unfold Decimal.le, calculateLiquidityPointBase.
  destruct (PerpLiquidity.ended liq) as [|e' ?]; [discriminate He|].
  injection He as ->.
  destruct (PerpLiquiditySnap.timestamp e <? windowStart);
    [apply Qcle_refl|].
  pose proof (integralAt_mono e windowEnd1 windowEnd2 Hlp Hle Hfits)
    as Hmono.
  unfold Spec.integralAt in Hmono. cbn zeta.
  destruct (hd_error (PerpLiquidity.start liq)) as [s|]; [|exact Hmono].
  apply finalise_mono. unfold Qcminus.
  apply Qcplus_le_compat; [exact Hmono | apply Qcle_refl].
Qed.

Lemma integrator_on_consistent_snapshots_witness :
  calculateLiquidityPointBase MoreFixtures.consistent_liquidity 1200 1800
  = Qcplus
      (Qcmult (Decimal.of_Z (1500 - 1200)) (Decimal.of_Z 100))
      (Qcmult (Decimal.of_Z (1800 - 1500)) (Decimal.of_Z 200)).
Proof.
  apply (integrator_on_consistent_snapshots
           MoreFixtures.consistent_liquidity 1200 1800
           MoreFixtures.consistent_start MoreFixtures.consistent_ended);
    try reflexivity; try (simpl; lia).
  repeat split; reflexivity.
Defined.

Lemma integrator_monotone_in_window_end_witness :
  Decimal.le
    (calculateLiquidityPointBase MoreFixtures.consistent_liquidity 1200 1400)
    (calculateLiquidityPointBase MoreFixtures.consistent_liquidity 1200 1800).
Proof.
  apply (integrator_monotone_in_window_end
           MoreFixtures.consistent_liquidity 1200 1400 1800
           MoreFixtures.consistent_ended).
  - reflexivity.
  - vm_compute. discriminate.
  - lia.
  - right. reflexivity.
Defined.

(** ** More on the point aggregator *)

(** The input can be processed in chunks: the results of a concatenation
    are the concatenation of the results. *)
Theorem calculateUserPoints_chunks
    (leaderboards1 leaderboards2 : list PerpLeaderboard)
    (config : CalculationConfig) (startTime stopTime : Z) (overtime : bool) :
  calculateUserPoints (leaderboards1 ++ leaderboards2)
                      config startTime stopTime overtime
  = calculateUserPoints leaderboards1 config startTime stopTime overtime
    ++ calculateUserPoints leaderboards2 config startTime stopTime overtime.
Proof. apply map_app. Qed.

Lemma userPoints_lp (config : CalculationConfig) (startTime stopTime : Z)
    (overtime : bool) (r : PerpLeaderboard) :
  UserPoints.lp_usd_hours (userPoints config startTime stopTime overtime r)
  = Spec.clampNonNegative
      (Decimal.mul (EngineSpec.liquidityIntegral startTime stopTime r)
                   (CalculationConfig.liquidityRate config)).
Proof.
  unfold userPoints, EngineSpec.liquidityIntegral.
  cbn [UserPoints.lp_usd_hours].
  destruct (PerpLeaderboard.liquidity r).
  - apply clamp_is_max.
  - rewrite mul_zero_l. reflexivity.
Qed.

(** Trade points and trade-profit points depend neither on the start of the
    window, nor on the liquidity of the record, nor on the liquidity
    rate. *)
Theorem trading_points_ignore_liquidity
    (leaderboards1 leaderboards2 : list PerpLeaderboard)
    (config1 config2 : CalculationConfig)
    (startTime1 startTime2 stopTime : Z) (overtime : bool) :
  Forall2 EngineSpec.same_trading leaderboards1 leaderboards2 ->
  CalculationConfig.tradeRate config1 = CalculationConfig.tradeRate config2 ->
  CalculationConfig.tradeProfitRate config1
  = CalculationConfig.tradeProfitRate config2 ->
  map EngineSpec.tradingPart
      (calculateUserPoints leaderboards1 config1 startTime1 stopTime overtime)
  = map EngineSpec.tradingPart
      (calculateUserPoints leaderboards2 config2 startTime2 stopTime overtime).
Proof.
  intros Hall Hrate Hprofit. unfold calculateUserPoints.
  induction Hall as [|r1 r2 rest1 rest2 Hr _ IH]; cbn [map].
  - reflexivity.
  - rewrite IH. f_equal.
    destruct Hr as (Hacc & Hvol & Hnp & Hts & Hstart & Hended).
    unfold EngineSpec.tradingPart, userPoints.
    cbn [UserPoints.account UserPoints.volume_usd
         UserPoints.realized_pnl_net_usd].
    now rewrite Hacc, Hvol, Hnp, Hts, Hstart, Hended, Hrate, Hprofit.
Qed.

Lemma trading_points_ignore_liquidity_witness :
  map EngineSpec.tradingPart
      (calculateUserPoints
         [Fixtures.baseline_lead] (Fixtures.createConfig 1 1 1)
         1000 1500 false)
  = map EngineSpec.tradingPart
      (calculateUserPoints
         [MoreFixtures.baseline_lead_with_liquidity]
         (Fixtures.createConfig 9 1 1) 1200 1500 false).
Proof.
  apply trading_points_ignore_liquidity.
  - repeat constructor.
  - reflexivity.
  - reflexivity.
Defined.

(** Liquidity points depend neither on the trading data of the record (so a
    loss never lowers them), nor on [overtime], nor on the trade rates. *)
Theorem liquidity_points_ignore_trading
    (leaderboards1 leaderboards2 : list PerpLeaderboard)
    (config1 config2 : CalculationConfig)
    (startTime stopTime : Z) (overtime1 overtime2 : bool) :
  Forall2 EngineSpec.same_liquidity leaderboards1 leaderboards2 ->
  CalculationConfig.liquidityRate config1
  = CalculationConfig.liquidityRate config2 ->
  map UserPoints.lp_usd_hours
      (calculateUserPoints leaderboards1 config1 startTime stopTime overtime1)
  = map UserPoints.lp_usd_hours
      (calculateUserPoints leaderboards2 config2 startTime stopTime overtime2).
Proof.
  intros Hall Hrate. unfold calculateUserPoints.
  induction Hall as [|r1 r2 rest1 rest2 Hr _ IH]; cbn [map].
  - reflexivity.
  - rewrite IH, !userPoints_lp. unfold EngineSpec.liquidityIntegral.
    now rewrite Hr, Hrate.
Qed.

Lemma liquidity_points_ignore_trading_witness :
  map UserPoints.lp_usd_hours
      (calculateUserPoints
         [Fixtures.limit_lead] (Fixtures.createConfig 2 1 1)
         1000 1500 false)
  = map UserPoints.lp_usd_hours
      (calculateUserPoints
         [MoreFixtures.limit_lead_trading] (Fixtures.createConfig 2 5 7)
         1000 1500 true).
Proof.
  apply liquidity_points_ignore_trading.
  - repeat constructor.
  - reflexivity.
Defined.

(** A record without liquidity history in the window gets 0 liquidity
    points, whatever the liquidity rate. *)
Theorem no_liquidity_history_no_points
    (leaderboards : list PerpLeaderboard) (config : CalculationConfig)
    (windowStart windowEnd : Z) (overtime : bool)
    (i : nat) (r : PerpLeaderboard) :
  nth_error leaderboards i = Some r ->
  EngineSpec.no_liquidity_history windowStart r ->
  exists p,
    nth_error
      (calculateUserPoints leaderboards config windowStart windowEnd overtime)
      i = Some p
    /\ UserPoints.lp_usd_hours p = Decimal.zero.
Proof.
  intros Hr Hno. eexists. split; [apply result_at; exact Hr|].
  rewrite userPoints_lp.
  assert (Hzero : EngineSpec.liquidityIntegral windowStart windowEnd r
                  = Decimal.zero).
  { unfold EngineSpec.liquidityIntegral, EngineSpec.no_liquidity_history in *.
    destruct (PerpLeaderboard.liquidity r) as [liq|]; [|reflexivity].
    unfold calculateLiquidityPointBase.
    destruct (PerpLiquidity.ended liq) as [|e rest]; [reflexivity|].
    apply Z.ltb_lt in Hno. now rewrite Hno. }
  rewrite Hzero, mul_zero_l. reflexivity.
Qed.

Lemma no_liquidity_history_no_points_witness :
  exists p,
    nth_error
      (calculateUserPoints
         [Fixtures.user1] (Fixtures.createConfig 5 1 1) 1000 1500 false)
      0 = Some p
    /\ UserPoints.lp_usd_hours p = Decimal.zero.
Proof.
  apply (no_liquidity_history_no_points
           [Fixtures.user1] (Fixtures.createConfig 5 1 1) 1000 1500 false
           0%nat Fixtures.user1).
  - reflexivity.
  - exact I.
Defined.

(** A product with a non-negative rate has the sign of its other factor,
    also after rounding, so the clamp can be taken before the product. *)
Lemma clamp_scales (x rate : Decimal) :
  Decimal.le Decimal.zero rate ->
  Spec.clampNonNegative (Decimal.mul x rate)
  = Decimal.mul (Spec.clampNonNegative x) rate.
Proof.
  intro Hrate. unfold Spec.clampNonNegative, Decimal.max.
  unfold Decimal.le in Hrate. rewrite Decimal_zero_eq in Hrate.
  destruct (Decimal.gt (Decimal.mul x rate) Decimal.zero) eqn:Hxr,
           (Decimal.gt x Decimal.zero) eqn:Hx.
  - reflexivity.
  - apply gt_true in Hxr. apply gt_false in Hx. exfalso.
    rewrite Decimal_zero_eq in *.
    apply (Qclt_not_le _ _ Hxr). apply finalise_nonpos.
    rewrite <- (Qcmult_0_l rate). now apply Qcmult_le_compat_r.
  - apply gt_false in Hxr. apply gt_true in Hx.
    rewrite Decimal_zero_eq in *.
    apply Qcle_antisym; [|exact Hxr].
    apply finalise_nonneg.
    rewrite <- (Qcmult_0_l rate).
    apply Qcmult_le_compat_r; [now apply Qclt_le_weak | exact Hrate].
  - now rewrite mul_zero_l.
Qed.

(** With non-negative rates every point value is its rate times the
    clamped quantity of the window: the liquidity integral, the trading
    volume and the net profit. *)
Theorem points_scale_with_rates
    (leaderboards : list PerpLeaderboard) (config : CalculationConfig)
    (windowStart windowEnd : Z) (overtime : bool)
    (i : nat) (r : PerpLeaderboard) :
  nth_error leaderboards i = Some r ->
  Decimal.le Decimal.zero (CalculationConfig.liquidityRate config) ->
  Decimal.le Decimal.zero (CalculationConfig.tradeRate config) ->
  Decimal.le Decimal.zero (CalculationConfig.tradeProfitRate config) ->
  exists p,
    nth_error
      (calculateUserPoints leaderboards config windowStart windowEnd overtime)
      i = Some p
    /\ UserPoints.lp_usd_hours p
       = Decimal.mul
           (Spec.clampNonNegative
              (EngineSpec.liquidityIntegral windowStart windowEnd r))
           (CalculationConfig.liquidityRate config)
    /\ UserPoints.volume_usd p
       = Decimal.mul
           (Spec.clampNonNegative
              (EngineSpec.volumeInWindow overtime windowEnd r))
           (CalculationConfig.tradeRate config)
    /\ UserPoints.realized_pnl_net_usd p
       = Decimal.mul
           (Spec.clampNonNegative
              (EngineSpec.profitInWindow overtime windowEnd r))
           (CalculationConfig.tradeProfitRate config).
Proof.
  intros Hr Hlr Htr Hpr. eexists. split; [apply result_at; exact Hr|].
  rewrite userPoints_lp, userPoints_volume, userPoints_pnl.
  split; [|split].
  - now apply clamp_scales.
  - unfold Spec.tradePointsFrom, EngineSpec.volumeInWindow.
    destruct (hd_error (PerpLeaderboard.start r)); now apply clamp_scales.
  - unfold Spec.tradeProfitPointsFrom, EngineSpec.profitInWindow.
    cbn zeta. rewrite (clamp_scales _ _ Hpr).
    unfold Spec.clampNonNegative, Decimal.max.
    destruct (Decimal.gt _ Decimal.zero);
      [reflexivity | now rewrite mul_zero_l].
Qed.

Lemma points_scale_with_rates_witness :
  exists p,
    nth_error
      (calculateUserPoints
         [Fixtures.overtime_lead] (Fixtures.createConfig 2 3 5)
         1000 1500 true)
      0 = Some p
    /\ UserPoints.volume_usd p = Decimal.of_Z 5000
    /\ UserPoints.realized_pnl_net_usd p = Decimal.of_Z 150.
Proof.
  destruct (points_scale_with_rates
              [Fixtures.overtime_lead] (Fixtures.createConfig 2 3 5)
              1000 1500 true 0%nat Fixtures.overtime_lead eq_refl)
    as (p & Hp & _ & Hv & Hn).
  - vm_compute. discriminate.
  - vm_compute. discriminate.
  - vm_compute. discriminate.
  - exists p. split; [exact Hp|]. rewrite Hv, Hn. split; reflexivity.
Defined.

(** ** The subgraph client: [executeQuery] *)

Lemma after_zero (w : World.t) : ClientSpec.after w 0 [] = w.
Proof.
  destruct w as [n s p]. unfold ClientSpec.after. cbn.
  now rewrite Nat.add_0_r, app_nil_r.
Qed.

Lemma after_retry (this : SubgraphClient.t) (w : World.t) (rc k : nat) :
  ClientSpec.after
    (World.sleep (ClientSpec.effectiveRetryDelay this * 2 ^ Z.of_nat rc)
                 (World.request w))
    k (ClientSpec.backoff this (S rc) k)
  = ClientSpec.after w (S k) (ClientSpec.backoff this rc (S k)).
Proof.
  unfold ClientSpec.after, ClientSpec.backoff. cbn.
  f_equal.
  - lia.
  - now rewrite <- app_assoc.
Qed.

Lemma after_request (w : World.t) (k : nat) (delays : list Z) :
  World.request (ClientSpec.after w k delays)
  = ClientSpec.after w (S k) delays.
Proof.
  unfold ClientSpec.after, World.request. cbn. f_equal. lia.
Qed.

(** One step of [executeQuery] on a retryable failure with a retry left. *)
Lemma executeQuery_retry {Row : Type} (server : Server Row)
    (this : SubgraphClient.t) (variables : SubgraphQueryVariables)
    (rc : nat) (w : World.t) (error : RequestError) :
  server (World.requests w) variables = inr error ->
  ClientSpec.retryable error = true ->
  Z.of_nat rc < ClientSpec.effectiveMaxRetries this ->
  SubgraphClient.executeQuery server this variables rc w
  = SubgraphClient.executeQuery server this variables (S rc)
      (World.sleep (ClientSpec.effectiveRetryDelay this * 2 ^ Z.of_nat rc)
                   (World.request w)).
Proof.
  intros Hfail Hretry Hleft.
  rewrite SubgraphClient.executeQuery_equation_1. cbn zeta.
  rewrite Hfail.
  unfold ClientSpec.retryable in Hretry.
  unfold ClientSpec.effectiveMaxRetries in Hleft.
  destruct (status_is error 429); [discriminate Hretry|].
  destruct (Z_lt_dec _ _) as [_|Hno]; [|contradiction].
  destruct (status_ge error 500); [reflexivity|].
  destruct (status_ge error 400); [discriminate Hretry | reflexivity].
Qed.

(** One step of [executeQuery] on a retryable failure with no retry left. *)
Lemma executeQuery_giveUp {Row : Type} (server : Server Row)
    (this : SubgraphClient.t) (variables : SubgraphQueryVariables)
    (rc : nat) (w : World.t) (error : RequestError) :
  server (World.requests w) variables = inr error ->
  ClientSpec.retryable error = true ->
  ClientSpec.effectiveMaxRetries this <= Z.of_nat rc ->
  SubgraphClient.executeQuery server this variables rc w
  = (Thrown (RetrySpec.giveUp error), World.request w).
Proof.
  intros Hfail Hretry Hleft.
  rewrite SubgraphClient.executeQuery_equation_1. cbn zeta.
  rewrite Hfail.
  unfold ClientSpec.retryable in Hretry.
  unfold ClientSpec.effectiveMaxRetries in Hleft.
  unfold RetrySpec.giveUp.
  destruct (status_is error 429); [discriminate Hretry|].
  destruct (Z_lt_dec _ _) as [Hyes|_]; [lia|].
  destruct (status_ge error 500); [reflexivity|].
  destruct (status_ge error 400); [discriminate Hretry | reflexivity].
Qed.

Lemma executeQuery_transient {Row : Type} (server : Server Row)
    (this : SubgraphClient.t) (variables : SubgraphQueryVariables)
    (k rc : nat) (w : World.t) :
  RetrySpec.transient server variables (World.requests w) k ->
  (forall i, (i < k)%nat ->
     Z.of_nat (rc + i) < ClientSpec.effectiveMaxRetries this) ->
  SubgraphClient.executeQuery server this variables rc w
  = SubgraphClient.executeQuery server this variables (rc + k)
      (ClientSpec.after w k (ClientSpec.backoff this rc k)).
Proof.
  revert rc w. induction k as [|k IH]; intros rc w Hfail Hleft.
  - now rewrite Nat.add_0_r, after_zero.
  - destruct (Hfail 0%nat ltac:(lia)) as (error & Herr & Hretry).
    rewrite Nat.add_0_r in Herr.
    rewrite (executeQuery_retry server this variables rc w error Herr Hretry).
    2:{ specialize (Hleft 0%nat ltac:(lia)). now rewrite Nat.add_0_r in Hleft. }
    rewrite IH.
    + rewrite after_retry. f_equal. lia.
    + intros i Hi. destruct (Hfail (S i) ltac:(lia)) as (e & He & Hr).
      exists e. split; [|exact Hr].
      cbn [World.sleep World.request World.requests].
      rewrite <- He. f_equal. lia.
    + intros i Hi. specialize (Hleft (S i) ltac:(lia)). lia.
Qed.

(** After some transient failures that leave a retry, a response is
    returned: [k] failed requests are retried, after the delays
    [retryDelay * 2^0, ..., retryDelay * 2^(k-1)], and the response to the
    next request is the result. *)
Theorem executeQuery_recovers_from_transient_failures
    {Row : Type} (server : Server Row) (this : SubgraphClient.t)
    (variables : SubgraphQueryVariables) (k : nat) (w : World.t)
    (response : SubgraphQueryResponse Row) :
  RetrySpec.transient server variables (World.requests w) k ->
  Z.of_nat k <= ClientSpec.effectiveMaxRetries this ->
  server (World.requests w + k)%nat variables = inl response ->
  SubgraphClient.executeQuery server this variables 0 w
  = (Returned response,
     ClientSpec.after w (S k) (ClientSpec.backoff this 0 k)).
Proof.
  intros Hfail Hleft Hok.
  rewrite (executeQuery_transient server this variables k 0 w Hfail)
    by (intros i Hi; cbn; lia).
  rewrite SubgraphClient.executeQuery_equation_1. cbn zeta.
  change (World.requests
            (ClientSpec.after w k (ClientSpec.backoff this 0 k)))
    with (World.requests w + k)%nat.
  rewrite Hok. now rewrite after_request.
Qed.

(** A failure with a status from 400 to 499 is never retried, also when it
    follows transient failures: 429 becomes a [RateLimitError], any other
    such status a [SubgraphError] with the code [CLIENT_ERROR] and that
    status. *)
Theorem executeQuery_never_retries_client_errors
    {Row : Type} (server : Server Row) (this : SubgraphClient.t)
    (variables : SubgraphQueryVariables) (k : nat) (w : World.t)
    (error : RequestError) (status : Z) :
  RetrySpec.transient server variables (World.requests w) k ->
  Z.of_nat k <= ClientSpec.effectiveMaxRetries this ->
  server (World.requests w + k)%nat variables = inr error ->
  RequestError.status error = Some status ->
  400 <= status < 500 ->
  SubgraphClient.executeQuery server this variables 0 w
  = (Thrown
       (if status =? 429
        then newRateLimitError (Some "Rate limit exceeded"%string)
        else newSubgraphError
               ("Client error: " ++ RequestError.message error)%string
               (Some "CLIENT_ERROR"%string) (Some status)),
     ClientSpec.after w (S k) (ClientSpec.backoff this 0 k)).
Proof.
  intros Hfail Hleft Herr Hstatus Hrange.
  rewrite (executeQuery_transient server this variables k 0 w Hfail)
    by (intros i Hi; cbn; lia).
  rewrite SubgraphClient.executeQuery_equation_1. cbn zeta.
  change (World.requests
            (ClientSpec.after w k (ClientSpec.backoff this 0 k)))
    with (World.requests w + k)%nat.
  rewrite Herr, after_request.
  unfold status_is, status_ge. rewrite Hstatus.
  destruct (Z.eqb_spec status 429) as [->|Hne]; [reflexivity|].
  destruct (Z.leb_spec 500 status); [lia|].
  destruct (Z.leb_spec 400 status); [reflexivity | lia].
Qed.

(** When every request fails with a retryable failure, [executeQuery] sends
    [max(0, maxRetries || 3) + 1] requests (one request when [maxRetries]
    is negative), waits the back-off delay [(retryDelay || 1000) * 2^i]
    before retry [i], and throws a [NetworkError] made from the last
    failure. *)
Theorem executeQuery_exhausts_retries
    {Row : Type} (server : Server Row) (this : SubgraphClient.t)
    (variables : SubgraphQueryVariables) (w : World.t)
    (error : RequestError) :
  let retries := Z.to_nat (ClientSpec.effectiveMaxRetries this) in
  RetrySpec.transient server variables (World.requests w) retries ->
  server (World.requests w + retries)%nat variables = inr error ->
  ClientSpec.retryable error = true ->
  SubgraphClient.executeQuery server this variables 0 w
  = (Thrown (RetrySpec.giveUp error),
     ClientSpec.after w (S retries) (ClientSpec.backoff this 0 retries)).
Proof.
  intros retries Hfail Hlast Hretry.
  rewrite (executeQuery_transient server this variables retries 0 w Hfail)
    by (intros i Hi; unfold retries in Hi; cbn; lia).
  rewrite (executeQuery_giveUp server this variables _ _ error).
  - now rewrite after_request.
  - exact Hlast.
  - exact Hretry.
  - unfold retries. cbn. lia.
Qed.

(** Whatever the endpoint answers, a call of [executeQuery] with retry
    count [rc] sends at least one and at most
    [1 + max(0, (maxRetries || 3) - rc)] requests, takes exactly one
    back-off delay between two consecutive requests (each retry follows
    one [setTimeout] of its retry branch; the waits of [waitForRateLimit]
    are not counted), and calls no progress callback. *)
Theorem executeQuery_request_bound
    {Row : Type} (server : Server Row) (this : SubgraphClient.t)
    (variables : SubgraphQueryVariables) (rc : nat) (w : World.t) :
  let w' := snd (SubgraphClient.executeQuery server this variables rc w) in
  (World.requests w < World.requests w'
   <= World.requests w + 1
      + Z.to_nat (ClientSpec.effectiveMaxRetries this - Z.of_nat rc))%nat
  /\ (exists delays,
        World.slept w' = World.slept w ++ delays
        /\ S (List.length delays)
           = (World.requests w' - World.requests w)%nat)
  /\ World.progress w' = World.progress w.
Proof.
  cbn zeta. unfold ClientSpec.effectiveMaxRetries.
  funelim (SubgraphClient.executeQuery server this variables rc w).
  cbn zeta.
  assert (Hstop : forall c : Completion (SubgraphQueryResponse Row),
    let w' := snd (c, World.request w) in
    (World.requests w < World.requests w'
     <= World.requests w + 1
        + Z.to_nat (js_or (SubgraphConfig.maxRetries
                             (SubgraphClient.config this)) 3
                    - Z.of_nat retryCount))%nat
    /\ (exists delays,
          World.slept w' = World.slept w ++ delays
          /\ S (List.length delays)
             = (World.requests w' - World.requests w)%nat)
    /\ World.progress w' = World.progress w).
  { intro c.
    cbn [snd World.request World.requests World.slept World.progress].
    split; [lia|]. split; [|reflexivity].
    exists []. rewrite app_nil_r.
    split; [reflexivity | cbn [List.length]; lia]. }
  assert (Hgo : forall delay,
    Z.of_nat retryCount
    < js_or (SubgraphConfig.maxRetries (SubgraphClient.config this)) 3 ->
    let w1 := World.sleep delay (World.request w) in
    let w' :=
      snd (SubgraphClient.executeQuery server this variables
             (S retryCount) w1) in
    ((World.requests w1 < World.requests w'
      <= World.requests w1 + 1
         + Z.to_nat (js_or (SubgraphConfig.maxRetries
                              (SubgraphClient.config this)) 3
                     - Z.of_nat (S retryCount)))%nat
     /\ (exists delays,
           World.slept w' = World.slept w1 ++ delays
           /\ S (List.length delays)
              = (World.requests w' - World.requests w1)%nat)
     /\ World.progress w' = World.progress w1) ->
    (World.requests w < World.requests w'
     <= World.requests w + 1
        + Z.to_nat (js_or (SubgraphConfig.maxRetries
                             (SubgraphClient.config this)) 3
                    - Z.of_nat retryCount))%nat
    /\ (exists delays,
          World.slept w' = World.slept w ++ delays
          /\ S (List.length delays)
             = (World.requests w' - World.requests w)%nat)
    /\ World.progress w' = World.progress w).
  { intros delay Hlt w1 w' (Hreq & (delays & Hslept & Hlen) & Hprog).
    cbn [w1 World.sleep World.request World.requests World.slept
         World.progress] in *.
    split; [lia|]. split; [|exact Hprog].
    exists (delay :: delays). rewrite Hslept, <- app_assoc.
    split; [reflexivity | cbn [List.length]; lia]. }
  destruct (server (World.requests w) variables) as [result|error];
    [apply Hstop|].
  destruct (status_is error 429); [apply Hstop|].
  destruct (status_ge error 500).
  - destruct (Z_lt_dec _ _) as [Hlt|_]; [|apply Hstop].
    apply (Hgo _ Hlt).
    match goal with IH : RequestError -> _ |- _ => apply IH; assumption end.
  - destruct (status_ge error 400); [apply Hstop|].
    destruct (Z_lt_dec _ _) as [Hlt|_]; [|apply Hstop].
    apply (Hgo _ Hlt).
    match goal with IH : RequestError -> _ |- _ => apply IH; assumption end.
Qed.

Lemma executeQuery_thrown_shape
    {Row : Type} (server : Server Row) (this : SubgraphClient.t)
    (variables : SubgraphQueryVariables) (rc : nat) (w : World.t)
    (e : SubgraphError) :
  fst (SubgraphClient.executeQuery server this variables rc w) = Thrown e ->
  RetrySpec.wellFormedError e.
Proof.
  funelim (SubgraphClient.executeQuery server this variables rc w).
  cbn zeta. clear Heqcall.
  assert (Hrec :
    forall error : RequestError,
    Z.of_nat retryCount
    < js_or (SubgraphConfig.maxRetries (SubgraphClient.config this)) 3 ->
    fst (SubgraphClient.executeQuery server this variables (S retryCount)
           (World.sleep
              (js_or (SubgraphConfig.retryDelay (SubgraphClient.config this))
                     1000 * 2 ^ Z.of_nat retryCount)
              (World.request w))) = Thrown e ->
    RetrySpec.wellFormedError e).
  { intros error Hlt Hthrown.
    match goal with IH : RequestError -> _ |- _ =>
      exact (IH error Hlt e Hthrown) end. }
  destruct (server (World.requests w) variables) as [result|error];
    [discriminate|].
  unfold status_is, status_ge.
  destruct (RequestError.status error) as [s|] eqn:Hs.
  - destruct (Z.eqb_spec s 429) as [->|Hne].
    { intros [= <-]. cbn. repeat split; discriminate. }
    destruct (Z.leb_spec 500 s).
    { destruct (Z_lt_dec _ _) as [Hlt|_]; [now apply Hrec|].
      intros [= <-]. cbn. repeat split; try discriminate. assumption. }
    destruct (Z.leb_spec 400 s).
    { intros [= <-]. cbn. repeat split; try discriminate; lia. }
    destruct (Z_lt_dec _ _) as [Hlt|_]; [now apply Hrec|].
    intros [= <-]. cbn. repeat split; discriminate.
  - destruct (Z_lt_dec _ _) as [Hlt|_]; [now apply Hrec|].
    intros [= <-]. cbn. repeat split; discriminate.
Qed.

(** Every error that [executeQuery] throws is a [RateLimitError] with the
    status 429, a [NetworkError] with no status or a status of 500 or more,
    or a [SubgraphError] with the code [CLIENT_ERROR] and another status
    from 400 to 499; its [name] is always [SubgraphError]. *)
Theorem executeQuery_throws_classified_errors
    {Row : Type} (server : Server Row) (this : SubgraphClient.t)
    (variables : SubgraphQueryVariables) (rc : nat) (w : World.t)
    (e : SubgraphError) :
  fst (SubgraphClient.executeQuery server this variables rc w) = Thrown e ->
  RetrySpec.wellFormedError e.
Proof. apply executeQuery_thrown_shape. Qed.

(** [executeQuery] reads the configuration only through
    [maxRetries || 3] and [retryDelay || 1000]. *)
Lemma executeQuery_reads_effective_config
    {Row : Type} (server : Server Row) (this1 this2 : SubgraphClient.t)
    (variables : SubgraphQueryVariables) (rc : nat) (w : World.t) :
  ClientSpec.effectiveMaxRetries this1 = ClientSpec.effectiveMaxRetries this2 ->
  ClientSpec.effectiveRetryDelay this1 = ClientSpec.effectiveRetryDelay this2 ->
  SubgraphClient.executeQuery server this1 variables rc w
  = SubgraphClient.executeQuery server this2 variables rc w.
Proof.
  unfold ClientSpec.effectiveMaxRetries, ClientSpec.effectiveRetryDelay.
  intros Hmax Hdelay.
  remember (Z.to_nat
              (js_or (SubgraphConfig.maxRetries (SubgraphClient.config this1))
                     3 - Z.of_nat rc)) as n eqn:Hn.
  revert rc w Hn. induction n as [|n IH]; intros rc w Hn;
    rewrite (SubgraphClient.executeQuery_equation_1 server this1),
            (SubgraphClient.executeQuery_equation_1 server this2);
    cbn zeta; rewrite <- Hmax, <- Hdelay;
    (destruct (server (World.requests w) variables) as [result|error];
       [reflexivity|]);
    (destruct (status_is error 429); [reflexivity|]);
    (destruct (status_ge error 500);
       [|destruct (status_ge error 400); [reflexivity|]]);
    (destruct (Z_lt_dec _ _) as [Hlt|_]; [|reflexivity]);
    try lia; apply IH; lia.
Qed.

(** Retries cannot be switched off with [maxRetries: 0], nor the delay with
    [retryDelay: 0]: a 0 (like a missing value) is replaced by the default,
    3 retries and 1000 ms. *)
Theorem executeQuery_zero_means_default
    {Row : Type} (server : Server Row) (this : SubgraphClient.t)
    (variables : SubgraphQueryVariables) (rc : nat) (w : World.t) :
  (SubgraphConfig.maxRetries (SubgraphClient.config this) = Some 0
   \/ SubgraphConfig.maxRetries (SubgraphClient.config this) = None ->
   SubgraphClient.executeQuery server this variables rc w
   = SubgraphClient.executeQuery
       server (RetrySpec.withMaxRetries (Some 3) this) variables rc w)
  /\ (SubgraphConfig.retryDelay (SubgraphClient.config this) = Some 0
      \/ SubgraphConfig.retryDelay (SubgraphClient.config this) = None ->
      SubgraphClient.executeQuery server this variables rc w
      = SubgraphClient.executeQuery
          server (RetrySpec.withRetryDelay (Some 1000) this) variables rc w).
Proof.
  destruct this as [client [endpoint rps maxRetries retryDelay]].
  cbn [SubgraphClient.config SubgraphConfig.maxRetries
       SubgraphConfig.retryDelay].
  split; intro H; apply executeQuery_reads_effective_config;
    destruct H as [-> | ->]; reflexivity.
Qed.

(** ** The subgraph client: [fetchPage] and [fetchAllData] *)

Lemma fetchPage_ok {Row : Type} (server : Server Row)
    (this : SubgraphClient.t) (epochBegin epochEnded skip : Z) (w : World.t)
    (response : SubgraphQueryResponse Row) :
  server (World.requests w)
         (PagingSpec.variablesAt epochBegin epochEnded skip)
  = inl response ->
  SubgraphClient.fetchPage server this epochBegin epochEnded skip w
  = (Returned
       (let data :=
          match SubgraphQueryResponse.data response with
          | Some data => data
          | None => []
          end in
        {| FetchResult.data := data;
           FetchResult.pagination :=
             {| PaginationInfo.skip := skip;
                PaginationInfo.hasMore :=
                  (List.length data =? 1000)%nat;
                PaginationInfo.totalFetched :=
                  skip + Z.of_nat (List.length data) |} |}),
     World.request w).
Proof.
  intro Hok. unfold SubgraphClient.fetchPage.
  rewrite SubgraphClient.executeQuery_equation_1. cbn zeta.
  unfold PagingSpec.variablesAt in Hok. now rewrite Hok.
Qed.




Lemma length_pageOf {Row : Type} (dataset : list Row) (k : nat) :
  List.length (PagingSpec.pageOf dataset k)
  = Nat.min 1000 (List.length dataset - 1000 * k).
Proof.
  unfold PagingSpec.pageOf. now rewrite length_firstn, length_skipn.
Qed.

Lemma fetchPage_paged {Row : Type} (server : Server Row)
    (this : SubgraphClient.t) (dataset : list Row) (n0 : nat)
    (epochBegin epochEnded : Z) (k : nat) (w : World.t) :
  PagingSpec.paged_from server dataset n0 ->
  (n0 <= World.requests w)%nat ->
  SubgraphClient.fetchPage server this epochBegin epochEnded
                           (1000 * Z.of_nat k) w
  = (Returned
       {| FetchResult.data := PagingSpec.pageOf dataset k;
          FetchResult.pagination :=
            {| PaginationInfo.skip := 1000 * Z.of_nat k;
               PaginationInfo.hasMore :=
                 (List.length (PagingSpec.pageOf dataset k) =? 1000)%nat;
               PaginationInfo.totalFetched :=
                 1000 * Z.of_nat k
                 + Z.of_nat (List.length (PagingSpec.pageOf dataset k)) |} |},
     World.request w).
Proof.
  intros Hpaged Hn.
  rewrite (fetchPage_ok server this epochBegin epochEnded _ w
             {| SubgraphQueryResponse.data :=
                  Some (PagingSpec.pageOf dataset k) |}).
  - reflexivity.
  - rewrite (Hpaged _ _ Hn). unfold ClientSpec.paged, PagingSpec.pageOf.
    cbn [PagingSpec.variablesAt SubgraphQueryVariables.skip].
    replace (Z.to_nat (1000 * Z.of_nat k)) with (1000 * k)%nat by lia.
    reflexivity.
Qed.









(** ** The subgraph client: [fetchWithOptions] *)

Lemma firstn_then_firstn_skipn {Row : Type} (l : list Row) (n m : nat) :
  firstn n l ++ firstn m (skipn n l) = firstn (n + m) l.
Proof.
  revert l. induction n as [|n IH]; intros [|x rest].
  - now destruct m.
  - reflexivity.
  - now destruct m.
  - cbn. now rewrite IH.
Qed.

Lemma firstn_then_part_of_page {Row : Type} (rows : list Row) (k a : nat) :
  firstn (1000 * k) rows ++ firstn a (PagingSpec.pageOf rows k)
  = firstn (Nat.min (1000 * k + a) (1000 * (k + 1))) rows.
Proof.
  unfold PagingSpec.pageOf.
  rewrite firstn_firstn, firstn_then_firstn_skipn. f_equal. lia.
Qed.

Lemma fetchPage_paged_from_start {Row : Type} (this : SubgraphClient.t)
    (dataset : list Row) (epochBegin epochEnded startFrom : Z)
    (k : nat) (w : World.t) :
  0 <= startFrom ->
  exists pagination,
    SubgraphClient.fetchPage (ClientSpec.paged dataset) this
      epochBegin epochEnded (startFrom + 1000 * Z.of_nat k) w
    = (Returned
         {| FetchResult.data :=
              PagingSpec.pageOf (skipn (Z.to_nat startFrom) dataset) k;
            FetchResult.pagination := pagination |},
       World.request w)
    /\ PaginationInfo.hasMore pagination
       = (List.length
            (PagingSpec.pageOf (skipn (Z.to_nat startFrom) dataset) k)
          =? 1000)%nat.
Proof.
  intro Hstart. eexists.
  rewrite (fetchPage_ok (ClientSpec.paged dataset) this _ _ _ w
             {| SubgraphQueryResponse.data :=
                  Some (PagingSpec.pageOf
                          (skipn (Z.to_nat startFrom) dataset) k) |}).
  - split; reflexivity.
  - unfold ClientSpec.paged, PagingSpec.pageOf.
    cbn [PagingSpec.variablesAt SubgraphQueryVariables.skip].
    rewrite skipn_skipn.
    replace (Z.to_nat (startFrom + 1000 * Z.of_nat k))
      with (1000 * k + Z.to_nat startFrom)%nat by lia.
    reflexivity.
Qed.

Lemma fetchWithOptions_loop_done {Row : Type} (server : Server Row)
    (this : SubgraphClient.t) (fuel : nat) (options : FetchOptions.t)
    (allData : list Row) (skip : Z) (w : World.t) :
  SubgraphClient.fetchWithOptions_loop server this fuel options
    allData skip false w
  = Some (Returned allData, w).
Proof. destruct fuel; reflexivity. Qed.

Lemma fetchWithOptions_loop_paged {Row : Type} (this : SubgraphClient.t)
    (dataset : list Row) (options : FetchOptions.t) (startFrom : Z) :
  0 <= startFrom ->
  let rows := skipn (Z.to_nat startFrom) dataset in
  forall (fuel k : nat) (w : World.t),
    (1000 * k <= List.length rows)%nat ->
    (k = 0%nat
     \/ SubgraphClient.below_maxRecords
          (FetchOptions.maxRecords options) (firstn (1000 * k) rows)
        = true) ->
    (List.length rows / 1000 - k < fuel)%nat ->
    exists w',
      SubgraphClient.fetchWithOptions_loop (ClientSpec.paged dataset) this
        fuel options (firstn (1000 * k) rows)
        (startFrom + 1000 * Z.of_nat k) true w
      = Some (Returned
                (PagingSpec.expectedRecords
                   (FetchOptions.maxRecords options) rows),
              w').
Proof.
  intros Hstart rows.
  pose proof (Nat.div_mod_eq (List.length rows) 1000) as Hdiv.
  pose proof (Nat.mod_upper_bound (List.length rows) 1000
                ltac:(discriminate)) as Hmod.
  induction fuel as [|fuel IH]; intros k w Hk Hbelow Hfuel; [lia|].
  cbn [SubgraphClient.fetchWithOptions_loop andb].
  destruct (SubgraphClient.below_maxRecords
              (FetchOptions.maxRecords options) (firstn (1000 * k) rows))
    eqn:Hb.
  2:{ (* a negative [maxRecords] *)
    destruct Hbelow as [-> | Habs]; [|discriminate Habs].
    exists w. change (firstn (1000 * 0) rows) with (@nil Row) in *.
    do 2 f_equal.
    unfold SubgraphClient.below_maxRecords, PagingSpec.expectedRecords in *.
    destruct (FetchOptions.maxRecords options) as [m|]; [|discriminate Hb].
    cbn [List.length Z.of_nat] in Hb.
    destruct (Z.eqb_spec m 0); [discriminate Hb|].
    cbn [orb] in Hb.
    destruct (Z.ltb_spec 0 m); [discriminate Hb|].
    now replace (Z.to_nat m) with 0%nat by lia. }
  destruct (fetchPage_paged_from_start this dataset
              (FetchOptions.epochBegin options)
              (FetchOptions.epochEnded options) startFrom k w Hstart)
    as (pagination & -> & HhasMore).
  fold rows in HhasMore |- *.
  cbn [FetchResult.data FetchResult.pagination]. rewrite HhasMore.
  pose proof (length_pageOf rows k) as Hpage.
  assert (Hlenk : List.length (firstn (1000 * k) rows) = (1000 * k)%nat)
    by (rewrite length_firstn; lia).
  assert (Hadd : exists a : nat,
    firstn (1000 * k) rows
    ++ match FetchOptions.maxRecords options with
       | Some m =>
         if m =? 0 then PagingSpec.pageOf rows k
         else firstn
                (Z.to_nat
                   (Z.max 0
                      (m - Z.of_nat
                             (List.length (firstn (1000 * k) rows)))))
                (PagingSpec.pageOf rows k)
       | None => PagingSpec.pageOf rows k
       end
    = firstn (Nat.min (1000 * k + a) (1000 * (k + 1))) rows
    /\ match FetchOptions.maxRecords options with
       | Some m =>
         if m =? 0 then a = 1000%nat
         else 1000 * Z.of_nat k < m /\ a = (Z.to_nat m - 1000 * k)%nat
       | None => a = 1000%nat
       end).
  { assert (Hwhole : PagingSpec.pageOf rows k
                     = firstn 1000 (PagingSpec.pageOf rows k))
      by (symmetry; apply firstn_all2; rewrite Hpage; lia).
    unfold SubgraphClient.below_maxRecords in Hb.
    destruct (FetchOptions.maxRecords options) as [m|].
    - destruct (Z.eqb_spec m 0) as [->|Hm].
      + exists 1000%nat. split; [|reflexivity].
        rewrite Hwhole. apply firstn_then_part_of_page.
      + cbn [orb] in Hb. apply Z.ltb_lt in Hb. rewrite Hlenk in Hb |- *.
        exists (Z.to_nat m - 1000 * k)%nat.
        split; [|split; [lia | reflexivity]].
        replace (Z.to_nat (Z.max 0 (m - Z.of_nat (1000 * k))))
          with (Z.to_nat m - 1000 * k)%nat by lia.
        apply firstn_then_part_of_page.
    - exists 1000%nat. split; [|reflexivity].
      rewrite Hwhole. apply firstn_then_part_of_page. }
  destruct Hadd as (a & -> & Ha).
  set (allData' := firstn (Nat.min (1000 * k + a) (1000 * (k + 1))) rows).
  assert (Hlen' : List.length allData'
                  = Nat.min (Nat.min (1000 * k + a) (1000 * (k + 1)))
                            (List.length rows))
    by apply length_firstn.
  destruct (Nat.ltb_spec (List.length (PagingSpec.pageOf rows k)) 1000)
    as [Hshort|Hfull].
  - (* the last page *)
    rewrite fetchWithOptions_loop_done. eexists.
    apply f_equal. apply f_equal2; [apply f_equal | reflexivity].
    unfold allData', PagingSpec.expectedRecords.
    destruct (FetchOptions.maxRecords options) as [m|].
    + destruct (Z.eqb_spec m 0).
      * subst a. apply firstn_all2. lia.
      * destruct Ha as [Hm ->].
        destruct (Nat.le_gt_cases (Z.to_nat m) (List.length rows)).
        -- f_equal. lia.
        -- rewrite !firstn_all2 by lia. reflexivity.
    + subst a. apply firstn_all2. lia.
  - (* a full page *)
    assert (Hfull' : List.length (PagingSpec.pageOf rows k) = 1000%nat)
      by lia.
    rewrite Hfull'. cbn [Nat.eqb andb].
    destruct (SubgraphClient.below_maxRecords
                (FetchOptions.maxRecords options) allData') eqn:Hb'.
    + (* more to fetch *)
      assert (Hnext : allData' = firstn (1000 * (k + 1)) rows).
      { unfold allData'. f_equal.
        unfold SubgraphClient.below_maxRecords in Hb'.
        destruct (FetchOptions.maxRecords options) as [m|]; [|lia].
        destruct (Z.eqb_spec m 0); [lia|].
        cbn [orb] in Hb'. apply Z.ltb_lt in Hb'. lia. }
      rewrite Hnext in Hb' |- *.
      replace (startFrom + 1000 * Z.of_nat k + 1000)
        with (startFrom + 1000 * Z.of_nat (k + 1)) by lia.
      apply IH.
      * lia.
      * right. exact Hb'.
      * lia.
    + (* [maxRecords] is reached *)
      rewrite fetchWithOptions_loop_done. eexists.
    apply f_equal. apply f_equal2; [apply f_equal | reflexivity].
      unfold allData', PagingSpec.expectedRecords.
      unfold SubgraphClient.below_maxRecords in Hb'.
      destruct (FetchOptions.maxRecords options) as [m|];
        [|discriminate Hb'].
      destruct (Z.eqb_spec m 0); [discriminate Hb'|].
      cbn [orb] in Hb'. apply Z.ltb_ge in Hb'.
      destruct Ha as [Hm ->]. f_equal. lia.
Qed.

(** Against an endpoint that holds [dataset], [fetchWithOptions] returns
    the records that follow [startFrom], all of them when [maxRecords] is
    missing or 0, the first [maxRecords] of them otherwise (none when
    [maxRecords] is negative); [onError] is never called. *)
Theorem fetchWithOptions_returns_the_requested_records
    {Row : Type} (this : SubgraphClient.t) (dataset : list Row)
    (options : FetchOptions.t) (fuel : nat) (w : World.t) :
  let startFrom :=
    match FetchOptions.startFrom options with
    | Some s => s
    | None => 0
    end in
  let rows := skipn (Z.to_nat startFrom) dataset in
  0 <= startFrom ->
  (List.length rows / 1000 < fuel)%nat ->
  exists w',
    SubgraphClient.fetchWithOptions (ClientSpec.paged dataset) this
                                    fuel options w
    = Some (Returned
              (PagingSpec.expectedRecords
                 (FetchOptions.maxRecords options) rows),
            w').
Proof.
  intros startFrom rows Hstart Hfuel.
  unfold SubgraphClient.fetchWithOptions. fold startFrom.
  destruct (fetchWithOptions_loop_paged this dataset options startFrom Hstart
              fuel 0 w) as (w' & Hw').
  - lia.
  - now left.
  - fold rows. lia.
  - exists w'.
    replace (startFrom + 1000 * Z.of_nat 0) with startFrom in Hw' by lia.
    exact Hw'.
Qed.

Lemma executeQuery_fails_when_all_requests_fail
    {Row : Type} (server : Server Row) (this : SubgraphClient.t)
    (variables : SubgraphQueryVariables) (rc : nat) (w : World.t) :
  (forall n v, exists error, server n v = inr error) ->
  exists e w',
    SubgraphClient.executeQuery server this variables rc w = (Thrown e, w').
Proof.
  intro Hdown.
  remember (Z.to_nat (ClientSpec.effectiveMaxRetries this - Z.of_nat rc))
    as n eqn:Hn.
  unfold ClientSpec.effectiveMaxRetries in Hn.
  revert rc w Hn. induction n as [|n IH]; intros rc w Hn;
    rewrite SubgraphClient.executeQuery_equation_1; cbn zeta;
    (destruct (Hdown (World.requests w) variables) as (error & ->));
    (destruct (status_is error 429); [eauto|]);
    (destruct (status_ge error 500);
       [|destruct (status_ge error 400); [eauto|]]);
    (destruct (Z_lt_dec _ _) as [Hlt|_]; [|eauto]);
    try lia; apply IH; lia.
Qed.

(** When every request fails, [onError] always asks for a retry and
    [maxRecords] is not negative (it is undefined, 0 or positive, so that
    the loop is entered), [fetchWithOptions] never returns: whatever the
    bound on the iterations, it is used up. *)
Theorem fetchWithOptions_retries_forever
    {Row : Type} (server : Server Row) (this : SubgraphClient.t)
    (options : FetchOptions.t) (onError : SubgraphError -> Z -> bool)
    (fuel : nat) (w : World.t) :
  (forall n v, exists error, server n v = inr error) ->
  FetchOptions.onError options = Some onError ->
  (forall e skip, onError e skip = true) ->
  (forall m, FetchOptions.maxRecords options = Some m -> 0 <= m) ->
  SubgraphClient.fetchWithOptions server this fuel options w = None.
Proof.
  intros Hdown HonError Hretry Hmax.
  assert (Hbelow :
    SubgraphClient.below_maxRecords
      (FetchOptions.maxRecords options) (@nil Row) = true).
  { unfold SubgraphClient.below_maxRecords.
    destruct (FetchOptions.maxRecords options) as [m|]; [|reflexivity].
    specialize (Hmax m eq_refl). cbn [List.length Z.of_nat].
    destruct (Z.eqb_spec m 0); [reflexivity|].
    destruct (Z.ltb_spec 0 m); [reflexivity | lia]. }
  unfold SubgraphClient.fetchWithOptions.
  generalize (match FetchOptions.startFrom options with
              | Some s => s
              | None => 0
              end) as skip.
  intro skip. revert w. induction fuel as [|fuel IH]; intro w;
    cbn [SubgraphClient.fetchWithOptions_loop andb]; rewrite Hbelow.
  - reflexivity.
  - unfold SubgraphClient.fetchPage.
    destruct (executeQuery_fails_when_all_requests_fail server this
                {| SubgraphQueryVariables.skip := skip;
                   SubgraphQueryVariables.epochBegin :=
                     FetchOptions.epochBegin options;
                   SubgraphQueryVariables.epochEnded :=
                     FetchOptions.epochEnded options |} 0 w Hdown)
      as (e & w' & ->).
    rewrite HonError, Hretry. cbn [negb]. apply IH.
Qed.

(** ** The subgraph client: [getDataStats] *)

(** Against an endpoint that holds [dataset], [getDataStats] reports at
    most 1000 records, whatever the size of the dataset, and samples its
    first five records, with one request. *)
Theorem getDataStats_counts_the_first_page
    {Row : Type} (this : SubgraphClient.t) (dataset : list Row)
    (epochBegin epochEnded : Z) (w : World.t) :
  SubgraphClient.getDataStats (ClientSpec.paged dataset) this
                              epochBegin epochEnded w
  = (Returned
       {| DataStatsResult.totalRecords :=
            Z.of_nat (Nat.min 1000 (List.length dataset));
          DataStatsResult.sampleData := firstn 5 dataset |},
     World.request w).
Proof.
  unfold SubgraphClient.getDataStats.
  change 0 with (1000 * Z.of_nat 0).
  rewrite (fetchPage_paged (ClientSpec.paged dataset) this dataset 0
             epochBegin epochEnded 0 w)
    by (try (intros n v _; reflexivity); lia).
  cbn [FetchResult.data].
  assert (Hpage : PagingSpec.pageOf dataset 0 = firstn 1000 dataset)
    by reflexivity.
  rewrite Hpage, firstn_firstn, length_firstn.
  change (Nat.min 5 1000) with 5%nat.
  now destruct (Nat.min 1000 (List.length dataset) <? 1000)%nat.
Qed.

(** [getDataStats] hides the class of a failure: when it throws, the
    request for the first page made [executeQuery] throw an error [cause],
    and what [getDataStats] throws instead is a plain [SubgraphError]
    without code and status, never a [RateLimitError] or a [NetworkError],
    whose message is 'Failed to get data stats: SubgraphError: ' followed
    by the message of [cause]. *)
Theorem getDataStats_hides_the_error_class
    {Row : Type} (server : Server Row) (this : SubgraphClient.t)
    (epochBegin epochEnded : Z) (w w' : World.t) (e : SubgraphError) :
  SubgraphClient.getDataStats server this epochBegin epochEnded w
  = (Thrown e, w') ->
  exists cause,
    SubgraphClient.executeQuery
      server this (PagingSpec.variablesAt epochBegin epochEnded 0) 0 w
    = (Thrown cause, w')
    /\ e = newSubgraphError
             ("Failed to get data stats: SubgraphError: "
              ++ SubgraphError.message cause)%string
             None None
    /\ SubgraphError.errorClass e = IsSubgraphError
    /\ instanceofRateLimitError e = false
    /\ SubgraphError.code e = None
    /\ SubgraphError.statusCode e = None.
Proof.
  unfold SubgraphClient.getDataStats, SubgraphClient.fetchPage,
    PagingSpec.variablesAt.
  destruct (SubgraphClient.executeQuery server this _ 0 w)
    as [[response|cause] w1] eqn:Hquery.
  - now destruct (_ <? _)%nat.
  - intros [= <- <-]. exists cause. split; [reflexivity|].
    assert (Hcause : RetrySpec.wellFormedError cause).
    { eapply executeQuery_thrown_shape.
      rewrite Hquery. reflexivity. }
    destruct Hcause as (Hname & Hmessage & _).
    repeat split.
    unfold SubgraphError.toString. rewrite Hname. cbn [String.eqb Ascii.eqb].
    destruct (String.eqb_spec (SubgraphError.message cause) "")
      as [Hempty|_]; [contradiction | reflexivity].
Qed.

(** ** The subgraph client: the configuration *)

(** Two updates in a row leave the configuration that one update with the
    merged object leaves. *)
Theorem updateConfig_composes
    (this : SubgraphClient.t) (a b : PartialSubgraphConfig) :
  SubgraphClient.getConfig
    (SubgraphClient.updateConfig b (SubgraphClient.updateConfig a this))
  = SubgraphClient.getConfig
      (SubgraphClient.updateConfig (spread_partial a b) this).
Proof.
  destruct this as [client [e r m d]], a as [ae ar am ad], b as [be br bm bd].
  unfold SubgraphClient.getConfig, SubgraphClient.updateConfig, spread,
         spread_partial, spread_property.
  cbn.
  destruct be, br, bm, bd; reflexivity.
Qed.

(** The client talks to the endpoint of its configuration after the
    constructor, and an update keeps it so when it has no [endpoint] or a
    non-empty one. *)
Theorem client_follows_the_configured_endpoint
    (this : SubgraphClient.t) (config newConfig : PartialSubgraphConfig) :
  SubgraphClient.client (SubgraphClient.constructor config)
  = SubgraphConfig.endpoint
      (SubgraphClient.getConfig (SubgraphClient.constructor config))
  /\ (SubgraphClient.client this
      = SubgraphConfig.endpoint (SubgraphClient.getConfig this) ->
      match PartialSubgraphConfig.endpoint newConfig with
      | Some endpoint => js_truthy endpoint = true
      | None => True
      end ->
      SubgraphClient.client (SubgraphClient.updateConfig newConfig this)
      = SubgraphConfig.endpoint
          (SubgraphClient.getConfig
             (SubgraphClient.updateConfig newConfig this))).
Proof.
  split; [reflexivity|].
  unfold SubgraphClient.updateConfig, SubgraphClient.getConfig, spread,
         spread_property.
  cbn. intros Hinv Hendpoint.
  destruct (PartialSubgraphConfig.endpoint newConfig) as [endpoint|].
  - now rewrite Hendpoint.
  - exact Hinv.
Qed.

Lemma client_follows_the_configured_endpoint_witness :
  SubgraphClient.client
    (SubgraphClient.updateConfig ClientFixtures.tenPerSecond
                                 ClientFixtures.defaultClient)
  = SubgraphConfig.endpoint
      (SubgraphClient.getConfig
         (SubgraphClient.updateConfig ClientFixtures.tenPerSecond
                                      ClientFixtures.defaultClient)).
Proof.
  apply (proj2 (client_follows_the_configured_endpoint
                  ClientFixtures.defaultClient PartialSubgraphConfig.empty
                  ClientFixtures.tenPerSecond)).
  - reflexivity.
  - exact I.
Defined.

(** An update with an empty (or undefined) [endpoint] changes the
    configuration but not the client: [getConfig] then reports an endpoint
    that the requests do not go to. *)
Theorem updateConfig_with_empty_endpoint_keeps_the_client
    (this : SubgraphClient.t) (newConfig : PartialSubgraphConfig)
    (endpoint : option string) :
  PartialSubgraphConfig.endpoint newConfig = Some endpoint ->
  js_truthy endpoint = false ->
  SubgraphClient.client (SubgraphClient.updateConfig newConfig this)
  = SubgraphClient.client this
  /\ SubgraphConfig.endpoint
       (SubgraphClient.getConfig (SubgraphClient.updateConfig newConfig this))
     = endpoint.
Proof.
  intros Hendpoint Hfalsy.
  unfold SubgraphClient.updateConfig, SubgraphClient.getConfig, spread,
         spread_property.
  cbn. now rewrite Hendpoint, Hfalsy.
Qed.

Lemma updateConfig_with_empty_endpoint_keeps_the_client_witness :
  SubgraphClient.client
    (SubgraphClient.updateConfig ClientFixtures.emptyEndpoint
                                 ClientFixtures.defaultClient)
  = SubgraphConfig.endpoint DEFAULT_SUBGRAPH_CONFIG
  /\ SubgraphConfig.endpoint
       (SubgraphClient.getConfig
          (SubgraphClient.updateConfig ClientFixtures.emptyEndpoint
                                       ClientFixtures.defaultClient))
     = Some ""%string.
Proof.
  apply (updateConfig_with_empty_endpoint_keeps_the_client
           ClientFixtures.defaultClient ClientFixtures.emptyEndpoint
           (Some ""%string)); reflexivity.
Defined.

(** ** The subgraph client: the properties on concrete endpoints *)

Lemma executeQuery_recovers_from_transient_failures_witness :
  SubgraphClient.executeQuery
    ClientFixtures.flakyServer ClientFixtures.defaultClient
    ClientFixtures.someVariables 0 World.initial
  = (Returned ClientFixtures.threeRows,
     ClientSpec.after World.initial 3
       (ClientSpec.backoff ClientFixtures.defaultClient 0 2)).
Proof.
  apply (executeQuery_recovers_from_transient_failures
           ClientFixtures.flakyServer ClientFixtures.defaultClient
           ClientFixtures.someVariables 2 World.initial
           ClientFixtures.threeRows).
  - intros i Hi. destruct i as [|[|i]];
      [eexists; split; reflexivity .. | lia].
  - vm_compute. discriminate.
  - reflexivity.
Defined.

Lemma executeQuery_never_retries_client_errors_witness :
  SubgraphClient.executeQuery
    ClientFixtures.lostServer ClientFixtures.defaultClient
    ClientFixtures.someVariables 0 World.initial
  = (Thrown (newSubgraphError "Client error: Not Found"
                              (Some "CLIENT_ERROR"%string) (Some 404)),
     ClientSpec.after World.initial 2
       (ClientSpec.backoff ClientFixtures.defaultClient 0 1)).
Proof.
  apply (executeQuery_never_retries_client_errors
           ClientFixtures.lostServer ClientFixtures.defaultClient
           ClientFixtures.someVariables 1 World.initial
           (ClientFixtures.failure "Not Found" 404) 404).
  - intros i Hi. destruct i as [|i];
      [eexists; split; reflexivity | lia].
  - vm_compute. discriminate.
  - reflexivity.
  - reflexivity.
  - lia.
Defined.

Lemma executeQuery_exhausts_retries_witness :
  SubgraphClient.executeQuery
    ClientFixtures.downServer ClientFixtures.defaultClient
    ClientFixtures.someVariables 0 World.initial
  = (Thrown (newNetworkError "Server error: Service Unavailable" (Some 503)),
     {| World.requests := 4; World.slept := [1000; 2000; 4000];
        World.progress := [] |}).
Proof.
  apply (executeQuery_exhausts_retries
           ClientFixtures.downServer ClientFixtures.defaultClient
           ClientFixtures.someVariables World.initial
           (ClientFixtures.failure "Service Unavailable" 503)).
  - intros i Hi. eexists. split; reflexivity.
  - reflexivity.
  - reflexivity.
Defined.

Lemma executeQuery_throws_classified_errors_witness :
  RetrySpec.wellFormedError
    (newNetworkError "Server error: Service Unavailable" (Some 503)).
Proof.
  apply (executeQuery_throws_classified_errors
           ClientFixtures.downServer ClientFixtures.defaultClient
           ClientFixtures.someVariables 0 World.initial).
  reflexivity.
Defined.

Lemma executeQuery_zero_means_default_witness :
  SubgraphClient.executeQuery
    ClientFixtures.downServer ClientFixtures.zeroClient
    ClientFixtures.someVariables 0 World.initial
  = SubgraphClient.executeQuery
      ClientFixtures.downServer
      (RetrySpec.withMaxRetries (Some 3) ClientFixtures.zeroClient)
      ClientFixtures.someVariables 0 World.initial
  /\ SubgraphClient.executeQuery
       ClientFixtures.downServer ClientFixtures.zeroClient
       ClientFixtures.someVariables 0 World.initial
     = SubgraphClient.executeQuery
         ClientFixtures.downServer
         (RetrySpec.withRetryDelay (Some 1000) ClientFixtures.zeroClient)
         ClientFixtures.someVariables 0 World.initial.
Proof.
  split.
  - apply (proj1 (executeQuery_zero_means_default
                    ClientFixtures.downServer ClientFixtures.zeroClient
                    ClientFixtures.someVariables 0 World.initial)).
    left. reflexivity.
  - apply (proj2 (executeQuery_zero_means_default
                    ClientFixtures.downServer ClientFixtures.zeroClient
                    ClientFixtures.someVariables 0 World.initial)).
    left. reflexivity.
Defined.





Lemma fetchWithOptions_returns_the_requested_records_witness :
  exists w',
    SubgraphClient.fetchWithOptions
      (ClientSpec.paged ClientFixtures.dataset) ClientFixtures.defaultClient
      3 (ClientFixtures.options (Some 1500) (Some 200) None) World.initial
    = Some (Returned (firstn 1500 (skipn 200 ClientFixtures.dataset)), w').
Proof.
  apply (fetchWithOptions_returns_the_requested_records
           ClientFixtures.defaultClient ClientFixtures.dataset
           (ClientFixtures.options (Some 1500) (Some 200) None)
           3 World.initial).
  - simpl. lia.
  - vm_compute. apply le_n.
Defined.

Lemma fetchWithOptions_retries_forever_witness :
  SubgraphClient.fetchWithOptions
    ClientFixtures.downServer ClientFixtures.defaultClient 50
    (ClientFixtures.options (Some 500) None
                            (Some ClientFixtures.alwaysRetry))
    World.initial
  = None.
Proof.
  apply (fetchWithOptions_retries_forever
           ClientFixtures.downServer ClientFixtures.defaultClient
           (ClientFixtures.options (Some 500) None
                                   (Some ClientFixtures.alwaysRetry))
           ClientFixtures.alwaysRetry 50 World.initial).
  - intros n v. eexists. reflexivity.
  - reflexivity.
  - reflexivity.
  - intros m [= <-]. lia.
Defined.

Lemma getDataStats_hides_the_error_class_witness :
  exists cause,
    SubgraphClient.executeQuery
      ClientFixtures.busyServer ClientFixtures.defaultClient
      (PagingSpec.variablesAt 1000 2000 0) 0 World.initial
    = (Thrown cause, World.request World.initial)
    /\ newSubgraphError
         "Failed to get data stats: SubgraphError: Rate limit exceeded"
         None None
       = newSubgraphError
           ("Failed to get data stats: SubgraphError: "
            ++ SubgraphError.message cause)%string
           None None
    /\ SubgraphError.errorClass
         (newSubgraphError
            "Failed to get data stats: SubgraphError: Rate limit exceeded"
            None None)
       = IsSubgraphError
    /\ instanceofRateLimitError
         (newSubgraphError
            "Failed to get data stats: SubgraphError: Rate limit exceeded"
            None None)
       = false
    /\ SubgraphError.code
         (newSubgraphError
            "Failed to get data stats: SubgraphError: Rate limit exceeded"
            None None)
       = None
    /\ SubgraphError.statusCode
         (newSubgraphError
            "Failed to get data stats: SubgraphError: Rate limit exceeded"
            None None)
       = None.
Proof.
  apply (getDataStats_hides_the_error_class
           ClientFixtures.busyServer ClientFixtures.defaultClient
           1000 2000 World.initial (World.request World.initial)).
  reflexivity.
Defined.
